(** * epistasis.stats: goodness-of-fit and model-comparison statistics

    A shallow embedding of [src/epistasis/stats.py].

    - NumPy [float64] values and Python [float]s are IEEE-754 binary64
      numbers: Rocq's primitive [float], whose operations are specified by
      [SpecFloat] (round to nearest, ties to even).
    - Python is dynamically typed, and the three kinds of number that occur in
      the module behave differently on a zero divisor: [int] and [float]
      raise [ZeroDivisionError], a NumPy scalar returns [inf] or [nan] (and
      only warns).  The type [num] keeps the three apart.
    - The vectors are one-dimensional NumPy arrays of [float64], as in the
      data model of the specification; NumPy is in its default error state,
      in which a floating-point division by zero warns and returns.
    - A Python [int] is unbounded; converting one to a float raises
      [OverflowError] when the nearest binary64 number would be out of range,
      and [len] is at most [sys.maxsize].
    - A raised exception is the [Raise] case of [result].
    - Routines of NumPy and SciPy that the module only calls ([np.mean],
      [np.log], [np.exp], [np.power], [scipy.stats.f.cdf]) are parameters of
      the development. *)

From Stdlib Require Import String.
From Stdlib Require Import Floats ZArith List Bool Lia.
Import ListNotations.

Local Open Scope string_scope.
Local Open Scope Z_scope.

(** ** Exceptions and results *)

Inductive exn : Type :=
| Exception (msg : string)
| ZeroDivisionError
| IndexError
| NameError (name : string)
| ValueError
| TypeError
| OverflowError.

Inductive result (A : Type) : Type :=
| Ok (a : A)
| Raise (e : exn).

Arguments Ok {A} a.
Arguments Raise {A} e.

Definition bind {A B : Type} (c : result A) (k : A -> result B) : result B :=
  match c with
  | Ok a => k a
  | Raise e => Raise e
  end.

Notation "x <- c ;; k" := (bind c (fun x => k))
  (at level 61, c at next level, right associativity).

Definition raises {A : Type} (c : result A) : Prop :=
  exists e, c = Raise e.

(** ** Numbers *)

(** The binary64 number nearest to the integer [z], ties to even (an infinity
    from [overflow_threshold] on). *)
Definition float_of_Z (z : Z) : float :=
  SF2Prim (binary_normalize prec emax z 0 false).

(** The least magnitude that rounds to [2 ^ 1024]: halfway between the largest
    binary64 number and [2 ^ 1024].  CPython raises [OverflowError] (int too
    large to convert to float) from there on. *)
Definition overflow_threshold : Z := 2 ^ 1024 - 2 ^ 970.

Definition float_overflows (z : Z) : bool := overflow_threshold <=? Z.abs z.

Inductive num : Type :=
| PyInt (z : Z)
| PyFloat (x : float)
| NpFloat (x : float).

Definition to_float (a : num) : float :=
  match a with
  | PyInt z => float_of_Z z
  | PyFloat x => x
  | NpFloat x => x
  end.

(** The operand as a binary64 number: [float(a)], and the conversion that
    NumPy and the float operators apply to an [int]. *)
Definition num_to_float (a : num) : result float :=
  match a with
  | PyInt z => if float_overflows z then Raise OverflowError
               else Ok (float_of_Z z)
  | PyFloat x => Ok x
  | NpFloat x => Ok x
  end.

Definition num_overflows (a : num) : bool :=
  match a with
  | PyInt z => float_overflows z
  | _ => false
  end.

Definition is_np (a : num) : bool :=
  match a with
  | NpFloat _ => true
  | _ => false
  end.

(** [+], [-] and [*]: exact on two [int]s; otherwise in binary64, and a NumPy
    scalar as soon as one operand is one.  (Where the module mixes an [int]
    with a float under these operators and the line can be reached, the
    [int] is the literal 0 or 1.) *)
Definition arith (fz : Z -> Z -> Z) (ff : float -> float -> float)
    (a b : num) : num :=
  match a, b with
  | PyInt x, PyInt y => PyInt (fz x y)
  | _, _ =>
      if is_np a || is_np b
      then NpFloat (ff (to_float a) (to_float b))
      else PyFloat (ff (to_float a) (to_float b))
  end.

Definition num_add : num -> num -> num := arith Z.add PrimFloat.add.
Definition num_sub : num -> num -> num := arith Z.sub PrimFloat.sub.
Definition num_mul : num -> num -> num := arith Z.mul PrimFloat.mul.

Definition num_neg (a : num) : num :=
  match a with
  | PyInt z => PyInt (- z)
  | PyFloat x => PyFloat (- x)%float
  | NpFloat x => NpFloat (- x)%float
  end.

Definition py_is_zero (a : num) : bool :=
  match a with
  | PyInt z => z =? 0
  | PyFloat x => (x =? 0)%float
  | NpFloat x => (x =? 0)%float
  end.

(** [x / y] for two [int]s, [y] not zero: the exact quotient rounded once to
    binary64, from a quotient of at least 55 bits and the position of the
    remainder. *)
Definition int_truediv (x y : Z) : spec_float :=
  match x with
  | 0 => S754_zero (y <? 0)
  | _ =>
      let a := Z.abs x in
      let b := Z.abs y in
      let k := Z.max 0 (Z.log2 b + 55 - Z.log2 a) in
      let '(q, r) := Z.div_eucl (a * 2 ^ k) b in
      let loc := if r =? 0 then loc_Exact else loc_Inexact (2 * r ?= b) in
      binary_round_aux prec emax (xorb (x <? 0) (y <? 0)) q (- k) loc
  end.

(** [a / b].  Two [int]s are divided exactly and rounded once; a result out of
    range raises [OverflowError].  Otherwise an [int] operand is converted
    first, which can raise [OverflowError]; then, with a NumPy scalar on
    either side the division is NumPy's and returns an infinity or a NaN on a
    zero divisor; between Python numbers a zero divisor raises. *)
Definition num_truediv (a b : num) : result num :=
  match a, b with
  | PyInt x, PyInt y =>
      if y =? 0 then Raise ZeroDivisionError
      else match int_truediv x y with
           | S754_infinity _ => Raise OverflowError
           | q => Ok (PyFloat (SF2Prim q))
           end
  | _, _ =>
      x <- num_to_float a ;;
      y <- num_to_float b ;;
      if is_np a || is_np b then Ok (NpFloat (x / y)%float)
      else if (y =? 0)%float then Raise ZeroDivisionError
      else Ok (PyFloat (x / y)%float)
  end.

(** [float(a)] *)
Definition py_float (a : num) : result num :=
  x <- num_to_float a ;; Ok (PyFloat x).

(** [a == b] *)
Definition py_eq (a b : num) : bool :=
  match a, b with
  | PyInt x, PyInt y => x =? y
  | _, _ => (to_float a =? to_float b)%float
  end.

(** [np.sqrt(a)] *)
Definition np_sqrt (a : num) : num := NpFloat (PrimFloat.sqrt (to_float a)).

(** [np.pi] *)
Definition np_pi : num := PyFloat 0x1.921fb54442d18p+1%float.

(** ** Arrays *)

(** A one-dimensional [float64] array. *)
Definition vector : Type := list float.

(** [sys.maxsize] (on a 64-bit platform): no list or array of Python has more
    elements. *)
Definition max_size : Z := 2 ^ 63 - 1.

(** [len(l)], an [int] of at most [sys.maxsize]. *)
Definition len {A : Type} (l : list A) : Z :=
  Z.min (Z.of_nat (length l)) max_size.

(** [v[i]] for [i] in [range(...)] *)
Definition getitem (v : vector) (i : nat) : result float :=
  match nth_error v i with
  | Some x => Ok x
  | None => Raise IndexError
  end.

(** [v[i] = a] *)
Fixpoint setitem (v : vector) (i : nat) (a : float) : result vector :=
  match v, i with
  | [], _ => Raise IndexError
  | _ :: t, O => Ok (a :: t)
  | h :: t, S j => t' <- setitem t j a ;; Ok (h :: t')
  end.

Fixpoint map2 (op : float -> float -> float) (a b : vector) : vector :=
  match a, b with
  | x :: a', y :: b' => op x y :: map2 op a' b'
  | _, _ => []
  end.

(** An elementwise operation on two arrays, with NumPy's broadcasting of an
    array of length one. *)
Definition broadcast (op : float -> float -> float) (a b : vector)
    : result vector :=
  if (length a =? length b)%nat then Ok (map2 op a b)
  else match a, b with
       | _, [y] => Ok (map (fun x => op x y) a)
       | [x], _ => Ok (map (op x) b)
       | _, _ => Raise ValueError
       end.

Definition np_sub : vector -> vector -> result vector := broadcast PrimFloat.sub.
Definition np_div : vector -> vector -> result vector := broadcast PrimFloat.div.

(** [v - c], [c * v] and [v ** 2] for a scalar [c]; NumPy squares by
    multiplying each element with itself, and converts a Python number [c]
    to [float64] before it multiplies.  (An [int] beyond the float range
    raises [OverflowError]: at once in NumPy 2, at the first element in
    NumPy 1.  The two differ on an empty array only, and the properties below
    use the error on arrays that are not empty.) *)
Definition np_sub_scalar (v : vector) (c : float) : vector :=
  map (fun x => (x - c)%float) v.
Definition scale_by (c : float) (v : vector) : vector :=
  map (fun x => (c * x)%float) v.
Definition np_scale (c : num) (v : vector) : result vector :=
  c' <- num_to_float c ;; Ok (scale_by c' v).
Definition np_square (v : vector) : vector :=
  map (fun x => (x * x)%float) v.

(** [np.zeros(k, dtype=float)] *)
Definition np_zeros (k : nat) : vector := repeat 0%float k.

(** The builtin [sum]: it starts from the [int] 0 and adds the elements from
    left to right. *)
Definition py_sum (v : vector) : num :=
  fold_left (fun acc x => num_add acc (NpFloat x)) v (PyInt 0).

(** [for i in range(N): st = body(st, i)] *)
Fixpoint for_each {S : Type} (body : S -> nat -> result S) (idx : list nat)
    (st : S) : result S :=
  match idx with
  | [] => Ok st
  | i :: rest => st' <- body st i ;; for_each body rest st'
  end.

Definition for_range {S : Type} (N : nat) (body : S -> nat -> result S)
    (st : S) : result S :=
  for_each body (seq 0 N) st.

(** ** Correlation metrics *)

Section Metrics.

(** [np.mean], NumPy's own reduction. *)
Variable np_mean : vector -> float.

(** The body of the loop of [pearson]:
    [terms[i] = (x[i] - xbar) * (y[i] - ybar)]. *)
Definition pearson_body (x y : vector) (xbar ybar : float)
    (terms : vector) (i : nat) : result vector :=
  xi <- getitem x i ;;
  yi <- getitem y i ;;
  setitem terms i ((xi - xbar) * (yi - ybar))%float.

Definition pearson (y_obs y_pred : vector) : result num :=
  let x := y_obs in
  let y := y_pred in
  let xbar := np_mean y_obs in
  let ybar := np_mean y_pred in
  let terms := np_zeros (length x) in
  terms <- for_range (length x) (pearson_body x y xbar ybar) terms ;;
  let numerator := py_sum terms in
  let xdenom := py_sum (np_square (np_sub_scalar x xbar)) in
  let ydenom := py_sum (np_square (np_sub_scalar y ybar)) in
  let denominator := num_mul (np_sqrt xdenom) (np_sqrt ydenom) in
  num_truediv numerator denominator.

Definition generalized_r2 (y_obs y_pred : vector) : result num :=
  let y_obs_mean := np_mean y_obs in
  let ss_total := py_sum (np_square (np_sub_scalar y_obs y_obs_mean)) in
  d <- np_sub y_obs y_pred ;;
  let ss_residuals := py_sum (np_square d) in
  q <- num_truediv ss_residuals ss_total ;;
  let r_squared := num_sub (PyInt 1) q in
  Ok r_squared.

Definition explained_variance (y_obs y_pred : vector) : result num :=
  let y_obs_mean := np_mean y_obs in
  let ss_total := py_sum (np_square (np_sub_scalar y_obs y_obs_mean)) in
  let ss_regression := py_sum (np_square (np_sub_scalar y_pred y_obs_mean)) in
  r_squared <- num_truediv ss_regression ss_total ;;
  Ok r_squared.

End Metrics.

Definition ss_residuals (y_obs y_pred : vector) : result num :=
  d <- np_sub y_obs y_pred ;;
  Ok (py_sum (np_square d)).

Definition chi_squared (y_obs y_pred : vector) : result num :=
  d <- np_sub y_obs y_pred ;;
  q <- np_div (np_square d) y_pred ;;
  Ok (py_sum q).

(** ** Model error statistics *)

(** The default of the keyword argument [sigmas]. *)
Definition sigmas_default : num := PyInt 2.

(** The state of the loops below: the two counters, in the order in which the
    source initialises them. *)
Definition counters : Type := (Z * Z)%type.

Definition false_positive_body (y_obs y_pred upper_bounds lower_bounds : vector)
    (st : counters) (i : nat) : result counters :=
  let '(known_zeros, false_positives) := st in
  o <- getitem y_obs i ;;
  if (o =? 0)%float then
    let known_zeros := known_zeros + 1 in
    p <- getitem y_pred i ;;
    ub <- getitem upper_bounds i ;;
    let upper := (p + ub)%float in
    p' <- getitem y_pred i ;;
    lb <- getitem lower_bounds i ;;
    let lower := (p' - lb)%float in
    o1 <- getitem y_obs i ;;
    if (upper <? o1)%float then Ok (known_zeros, false_positives + 1)
    else
      o2 <- getitem y_obs i ;;
      if (o2 <? lower)%float then Ok (known_zeros, false_positives + 1)
      else Ok (known_zeros, false_positives)
  else Ok (known_zeros, false_positives).

Definition false_positive_rate (y_obs y_pred upper_ci lower_ci : vector)
    (sigmas : num) : result num :=
  let N := length y_obs in
  if negb (N =? length y_pred)%nat || negb (N =? length upper_ci)%nat
  then Raise (Exception "Input arrays must all be the same size")
  else
    let known_zeros := 0 in
    let false_positives := 0 in
    upper_bounds <- np_scale sigmas upper_ci ;;
    lower_bounds <- np_scale sigmas lower_ci ;;
    st <- for_range N
            (false_positive_body y_obs y_pred upper_bounds lower_bounds)
            (known_zeros, false_positives) ;;
    let '(known_zeros, false_positives) := st in
    d <- py_float (PyInt known_zeros) ;;
    let rate := num_truediv (PyInt false_positives) d in
    rate.

Definition false_negative_body (y_obs y_pred upper_bounds lower_bounds : vector)
    (st : counters) (i : nat) : result counters :=
  let '(known_nonzeros, false_negatives) := st in
  o <- getitem y_obs i ;;
  if negb (o =? 0)%float then
    let known_nonzeros := known_nonzeros + 1 in
    p <- getitem y_pred i ;;
    ub <- getitem upper_bounds i ;;
    let upper := (p + ub)%float in
    p' <- getitem y_pred i ;;
    lb <- getitem lower_bounds i ;;
    let lower := (p' - lb)%float in
    if (lower <? 0)%float && (0 <? upper)%float
    then Ok (known_nonzeros, false_negatives + 1)
    else Ok (known_nonzeros, false_negatives)
  else Ok (known_nonzeros, false_negatives).

Definition false_negative_rate (y_obs y_pred upper_ci lower_ci : vector)
    (sigmas : num) : result num :=
  let N := length y_obs in
  if negb (N =? length y_pred)%nat || negb (N =? length upper_ci)%nat
  then Raise (Exception "Input arrays must all be the same size")
  else
    let known_nonzeros := 0 in
    let false_negatives := 0 in
    upper_bounds <- np_scale sigmas upper_ci ;;
    lower_bounds <- np_scale sigmas lower_ci ;;
    st <- for_range N
            (false_negative_body y_obs y_pred upper_bounds lower_bounds)
            (known_nonzeros, false_negatives) ;;
    let '(known_nonzeros, false_negatives) := st in
    d <- py_float (PyInt known_nonzeros) ;;
    let rate := num_truediv (PyInt false_negatives) d in
    rate.

(** [np.mean] as NumPy computes it on an array of fewer than eight elements:
    the elements added from left to right, the sum divided by the count. *)
Definition mean_seq (v : vector) : float :=
  (fold_left PrimFloat.add v 0 / float_of_Z (len v))%float.

(** ** The model handle *)

(** The object the comparison functions receive.  The module reads four of its
    attributes and nothing else. *)
Record model : Type := {
  n : Z;                          (* model.n *)
  Interactions_values : vector;   (* model.Interactions.values *)
  phenotypes : vector;            (* model.phenotypes *)
  predict : unit -> vector        (* model.predict() *)
}.

(** ** Name resolution *)

(** What a name of the module can be bound to. *)
Inductive pyobj : Type :=
| ObjModule
| ObjFunction
| ObjStr
| ObjNum (a : num).

(** The global namespace of [stats.py] once it is imported: [__doc__], the
    three imported names and the twelve functions. *)
Definition module_globals : list (string * pyobj) :=
  [ ("__doc__", ObjStr); ("np", ObjModule); ("f", ObjModule);
    ("norm", ObjModule);
    ("pearson", ObjFunction); ("generalized_r2", ObjFunction);
    ("explained_variance", ObjFunction); ("ss_residuals", ObjFunction);
    ("chi_squared", ObjFunction); ("false_positive_rate", ObjFunction);
    ("false_negative_rate", ObjFunction); ("log_likelihood", ObjFunction);
    ("AIC", ObjFunction); ("log_likelihood_ratio", ObjFunction);
    ("F_test", ObjFunction) ].

(** The builtin functions and types of Python 3 (the builtin exceptions and
    constants are left out). *)
Definition builtins : list (string * pyobj) :=
  map (fun s => (s, ObjFunction))
    [ "abs"; "all"; "any"; "ascii"; "bin"; "bool"; "breakpoint"; "bytearray";
      "bytes"; "callable"; "chr"; "classmethod"; "compile"; "complex";
      "delattr"; "dict"; "dir"; "divmod"; "enumerate"; "eval"; "exec";
      "filter"; "float"; "format"; "frozenset"; "getattr"; "globals";
      "hasattr"; "hash"; "help"; "hex"; "id"; "input"; "int"; "isinstance";
      "issubclass"; "iter"; "len"; "list"; "locals"; "map"; "max";
      "memoryview"; "min"; "next"; "object"; "oct"; "open"; "ord"; "pow";
      "print"; "property"; "range"; "repr"; "reversed"; "round"; "set";
      "setattr"; "slice"; "sorted"; "staticmethod"; "str"; "sum"; "super";
      "tuple"; "type"; "vars"; "zip" ].

Fixpoint lookup (name : string) (ns : list (string * pyobj)) : option pyobj :=
  match ns with
  | [] => None
  | (k, o) :: rest => if String.eqb name k then Some o else lookup name rest
  end.

(** Reading a name that the function does not assign: the module's globals,
    then the builtins, then [NameError]. *)
Definition load_global (name : string) : result pyobj :=
  match lookup name module_globals with
  | Some o => Ok o
  | None =>
      match lookup name builtins with
      | Some o => Ok o
      | None => Raise (NameError name)
      end
  end.

(** The object as an operand of arithmetic. *)
Definition as_num (o : pyobj) : result num :=
  match o with
  | ObjNum a => Ok a
  | _ => Raise TypeError
  end.

(** ** Calls on the models, and their trace *)

Inductive event : Type :=
| call_predict (m : model)
| call_ss_residuals (y_obs y_pred : vector)
| call_f_cdf (F : num) (df1 df2 : Z).

(** A computation together with the calls it made, in order, up to its return
    or its exception. *)
Definition traced (A : Type) : Type := (list event * result A)%type.

Definition tbind {A B : Type} (c : traced A) (k : A -> traced B) : traced B :=
  match c with
  | (tr, Ok a) => let '(tr', r) := k a in ((tr ++ tr')%list, r)
  | (tr, Raise e) => (tr, Raise e)
  end.

Notation "x <~ c ;; k" := (tbind c (fun x => k))
  (at level 61, c at next level, right associativity).

Definition lift {A : Type} (r : result A) : traced A := ([], r).
Definition trace_of {A : Type} (c : traced A) : list event := fst c.
Definition outcome {A : Type} (c : traced A) : result A := snd c.

Definition do_predict (m : model) : traced vector :=
  ([call_predict m], Ok (predict m tt)).

Definition do_ss_residuals (y_obs y_pred : vector) : traced num :=
  ([call_ss_residuals y_obs y_pred], ss_residuals y_obs y_pred).

(** ** Methods for model comparison *)

Section Comparison.

(** [np.log], [np.exp] and the power of a NumPy scalar. *)
Variable np_log : float -> float.
Variable np_exp : float -> float.
Variable np_power : float -> float -> float.

(** [scipy.stats.f.cdf(F, df1, df2)] *)
Variable f_cdf : float -> Z -> Z -> float.

Definition do_f_cdf (F : num) (df1 df2 : Z) : traced num :=
  ([call_f_cdf F df1 df2], Ok (NpFloat (f_cdf (to_float F) df1 df2))).

Definition log_likelihood (m : model) : result num :=
  let N := PyInt (n m) in
  ssr <- (o <- load_global "ssr" ;; as_num o) ;;
  q <- num_truediv ssr N ;;
  sigma <- py_float q ;;
  let two_pi_sigma := num_mul (num_mul (PyInt 2) np_pi) sigma in
  a <- num_truediv (PyFloat 1) (np_sqrt two_pi_sigma) ;;
  let l := num_mul N (NpFloat (np_log (to_float a))) in
  b <- num_truediv (PyFloat 1) (num_mul (PyFloat 2) sigma) ;;
  ssr' <- (o <- load_global "ssr" ;; as_num o) ;;
  let L := num_sub l (num_mul b ssr') in
  Ok L.

Definition AIC (m : model) : result num :=
  let k := len (Interactions_values m) in
  L <- log_likelihood m ;;
  let aic := num_sub (num_mul (PyInt 2) (PyInt k)) (num_mul (PyInt 2) L) in
  Ok aic.

(** One of the two likelihood lines of [log_likelihood_ratio]:
    [(1.0/ np.sqrt(2*np.pi*s)) ** model.n * np.exp(-ssr/(sigma*2.0))],
    [s] being read as a global. *)
Definition likelihood_line (s : string) (m : model) (ssr sigma : num)
    : result num :=
  sv <- (o <- load_global s ;; as_num o) ;;
  a <- num_truediv (PyFloat 1)
         (np_sqrt (num_mul (num_mul (PyInt 2) np_pi) sv)) ;;
  let p := NpFloat (np_power (to_float a) (to_float (PyInt (n m)))) in
  e <- num_truediv (num_neg ssr) (num_mul sigma (PyFloat 2)) ;;
  Ok (num_mul p (NpFloat (np_exp (to_float e)))).

(** One of the two lines [AIC = 2*df - 2*L], [df] being read as a global. *)
Definition aic_line (df : string) (L : num) : result num :=
  dv <- (o <- load_global df ;; as_num o) ;;
  Ok (num_sub (num_mul (PyInt 2) dv) (num_mul (PyInt 2) L)).

Definition log_likelihood_ratio (model1 model2 : model) : traced num :=
  pred1 <~ do_predict model1 ;;
  ssr1 <~ do_ss_residuals (phenotypes model1) pred1 ;;
  pred2 <~ do_predict model2 ;;
  ssr2 <~ do_ss_residuals (phenotypes model2) pred2 ;;
  q1 <~ lift (num_truediv ssr1 (PyInt (n model1))) ;;
  sigma1 <~ lift (py_float q1) ;;
  q2 <~ lift (num_truediv ssr2 (PyInt (n model2))) ;;
  sigma2 <~ lift (py_float q2) ;;
  L1 <~ lift (likelihood_line "s1" model1 ssr1 sigma1) ;;
  L2 <~ lift (likelihood_line "s2" model2 ssr2 sigma2) ;;
  AIC1 <~ lift (aic_line "df1" L1) ;;
  AIC2 <~ lift (aic_line "df2" L2) ;;
  h <~ lift (num_truediv AIC2 (PyInt 2)) ;;
  let ratio := NpFloat (np_exp (to_float (num_sub AIC1 h))) in
  lift (Ok ratio).

Definition F_test (model1 model2 : model) : traced (num * num) :=
  if len (Interactions_values model1) >=? len (Interactions_values model2)
  then lift (Raise (Exception "model1 must be nested in model2."))
  else
    let n_obs := len (phenotypes model1) in
    let p1 := len (Interactions_values model1) in
    let p2 := len (Interactions_values model2) in
    let df1 := p2 - p1 in
    let df2 := n_obs - p2 - 1 in
    pred1 <~ do_predict model1 ;;
    sse1 <~ do_ss_residuals (phenotypes model1) pred1 ;;
    pred2 <~ do_predict model2 ;;
    sse2 <~ do_ss_residuals (phenotypes model2) pred2 ;;
    a <~ lift (num_truediv (num_sub sse1 sse2) (PyInt df1)) ;;
    b <~ lift (num_truediv sse2 (PyInt df2)) ;;
    F <~ lift (num_truediv a b) ;;
    c <~ do_f_cdf F df1 df2 ;;
    let p_value := num_sub (PyInt 1) c in
    lift (Ok (F, p_value)).

End Comparison.

(** ** Vocabulary of the properties *)

(** [math.isfinite(x)]: neither an infinity nor a NaN. *)
Definition finite_value (x : float) : bool :=
  match Prim2SF x with
  | S754_zero _ | S754_finite _ _ _ => true
  | _ => false
  end.

Definition not_nan (x : float) : bool :=
  match Prim2SF x with
  | S754_nan => false
  | _ => true
  end.

(** [v[i]] for an index known to be in range. *)
Definition at_index (v : vector) (i : nat) : float := nth i v 0%float.

(** The number of indices below [N] that satisfy [P]. *)
Definition count (P : nat -> bool) (idx : list nat) : Z :=
  Z.of_nat (length (filter P idx)).

Definition count_indices (N : nat) (P : nat -> bool) : Z :=
  count P (seq 0 N).

(** The ends of the interval of index [i], scaled by [sigmas]. *)
Definition scaled_lower (y_pred lower_ci : vector) (sigmas : num) (i : nat)
    : float :=
  (at_index y_pred i - to_float sigmas * at_index lower_ci i)%float.

Definition scaled_upper (y_pred upper_ci : vector) (sigmas : num) (i : nat)
    : float :=
  (at_index y_pred i + to_float sigmas * at_index upper_ci i)%float.

(** Zero lies outside [[lower, upper]]: above its upper end or below its lower
    end. *)
Definition excludes_zero (lower upper : float) : bool :=
  (upper <? 0)%float || (0 <? lower)%float.

(** Zero lies strictly inside [[lower, upper]]. *)
Definition strictly_contains_zero (lower upper : float) : bool :=
  (lower <? 0)%float && (0 <? upper)%float.

(** [o == 0.0] *)
Definition equals_zero (o : float) : bool := (o =? 0)%float.

Definition is_zero_obs (y_obs : vector) (i : nat) : bool :=
  (at_index y_obs i =? 0)%float.

(** The observations equal to zero, and those among them whose scaled interval
    excludes zero. *)
Definition zero_observations (y_obs : vector) : Z :=
  count_indices (length y_obs) (is_zero_obs y_obs).

Definition is_false_positive (y_obs y_pred upper_ci lower_ci : vector)
    (sigmas : num) (i : nat) : bool :=
  is_zero_obs y_obs i &&
  excludes_zero (scaled_lower y_pred lower_ci sigmas i)
                (scaled_upper y_pred upper_ci sigmas i).

Definition false_positive_count (y_obs y_pred upper_ci lower_ci : vector)
    (sigmas : num) : Z :=
  count_indices (length y_obs)
    (is_false_positive y_obs y_pred upper_ci lower_ci sigmas).

(** The observations different from zero, and those among them whose scaled
    interval strictly contains zero. *)
Definition nonzero_observations (y_obs : vector) : Z :=
  count_indices (length y_obs) (fun i => negb (is_zero_obs y_obs i)).

Definition is_false_negative (y_obs y_pred upper_ci lower_ci : vector)
    (sigmas : num) (i : nat) : bool :=
  negb (is_zero_obs y_obs i) &&
  strictly_contains_zero (scaled_lower y_pred lower_ci sigmas i)
                         (scaled_upper y_pred upper_ci sigmas i).

Definition false_negative_count (y_obs y_pred upper_ci lower_ci : vector)
    (sigmas : num) : Z :=
  count_indices (length y_obs)
    (is_false_negative y_obs y_pred upper_ci lower_ci sigmas).

(** [c / float(z)] for two [int]s, as the last lines of the two rates
    compute it. *)
Definition py_ratio (c z : Z) : result num :=
  d <- py_float (PyInt z) ;; num_truediv (PyInt c) d.

(** An array of a size that Python can hold: at most [sys.maxsize]
    elements.  The loops of the two rates count indices of [y_obs], so that
    their counters then convert to floats. *)
Definition sized (v : vector) : bool := Z.of_nat (length v) <=? max_size.

(** The squared deviations of [v] from its mean, added from left to right in
    binary64. *)
Definition sq_dev_sum (np_mean : vector -> float) (v : vector) : float :=
  fold_left PrimFloat.add
    (map (fun a => ((a - np_mean v) * (a - np_mean v))%float) v) 0%float.

(** The sum of squared deviations from the mean, as [pearson],
    [generalized_r2] and [explained_variance] compute it. *)
Definition sum_sq_dev (np_mean : vector -> float) (v : vector) : num :=
  py_sum (np_square (np_sub_scalar v (np_mean v))).

(** The product that the loop of [pearson] stores at index [i]. *)
Definition pearson_term (x y : vector) (xbar ybar : float) (i : nat) : float :=
  ((at_index x i - xbar) * (at_index y i - ybar))%float.

(** A finite nonzero number of at most [prec] digits and exponent at least
    [lo], or an infinity. *)
Definition nonzero_above (lo : Z) (x : spec_float) : Prop :=
  match x with
  | S754_finite _ m e => Z.pos (digits2_pos m) <= prec /\ lo <= e
  | S754_infinity _ => True
  | _ => False
  end.

(** A zero or a NaN. *)
Definition sf_zero_or_nan (x : spec_float) : Prop :=
  match x with
  | S754_zero _ | S754_nan => True
  | _ => False
  end.

(** A model with at least one observation and a prediction for each. *)
Definition fitted (m : model) : bool :=
  negb (length (phenotypes m) =? 0)%nat &&
  (length (predict m tt) =? length (phenotypes m))%nat.

(** The residual sum of squares of a model whose prediction is as long as
    its observations. *)
Definition rss (m : model) : float :=
  to_float (py_sum (np_square (map2 PrimFloat.sub (phenotypes m) (predict m tt)))).

(** The number of parameters of a model. *)
Definition n_params (m : model) : Z := len (Interactions_values m).

Definition nesting_error : exn := Exception "model1 must be nested in model2.".
Definition size_error : exn := Exception "Input arrays must all be the same size".

(** Not below zero: a zero, a positive number, [+inf], or a NaN. *)
Definition sf_not_negative (x : spec_float) : Prop :=
  match x with
  | S754_zero _ | S754_nan => True
  | S754_infinity s | S754_finite s _ _ => s = false
  end.

(** Two arrays that NumPy can combine elementwise. *)
Definition broadcastable (a b : vector) : bool :=
  (length a =? length b)%nat || (length a =? 1)%nat || (length b =? 1)%nat.

(** Some index below [N] that satisfies [P] lies at or beyond [L]. *)
Definition beyond (P : nat -> bool) (L N : nat) : bool :=
  existsb (fun i => P i && (L <=? i)%nat) (seq 0 N).

(** The event is a call of [f.cdf]. *)
Definition is_cdf_call (ev : event) : bool :=
  match ev with
  | call_f_cdf _ _ _ => true
  | _ => false
  end.

(** Equal, or opposite. *)
Definition same_magnitude (u v : spec_float) : Prop :=
  v = u \/ v = SFopp u.

(** ** Concrete models and routines for the examples *)

Definition make_model (params obs pred : vector) : model :=
  {| n := len obs;
     Interactions_values := params;
     phenotypes := obs;
     predict := fun _ => pred |}.

(** A model with one parameter, one with two, both fitted to four
    observations. *)
Definition small_model : model :=
  make_model [1]%float [1; 2; 4; 3]%float [2; 2; 3; 3]%float.
Definition large_model : model :=
  make_model [1; 1]%float [1; 2; 4; 3]%float [1; 2; 3; 3]%float.

(** The same two models before any observation was made. *)
Definition small_model_unobserved : model := make_model [1]%float [] [].
Definition large_model_unobserved : model := make_model [1; 1]%float [] [].

(** Stand-ins for the routines of NumPy and SciPy in the concrete runs; the
    general properties hold for every choice of them. *)
Definition unit_cdf (F : float) (df1 df2 : Z) : float := F.
Definition unit_fn (x : float) : float := x.
Definition unit_fn2 (x y : float) : float := x.

(** * Properties *)

Local Open Scope list_scope.

(** ** Facts about binary64 arithmetic *)

Lemma digits2_pos_size p : digits2_pos p = Pos.size p.
Proof. induction p; simpl; congruence. Qed.

(** One step of the right shift removes one binary digit. *)
Lemma shr_1_digits mrs :
  1 < Zdigits2 (shr_m mrs) -> 0 < shr_m mrs ->
  0 < shr_m (shr_1 mrs) /\ Zdigits2 (shr_m (shr_1 mrs)) = Zdigits2 (shr_m mrs) - 1.
Proof.
  destruct mrs as [m r s]. simpl shr_m at 1 2.
  destruct m as [|p|p]; try lia.
  destruct p; cbn [shr_m shr_1 Zdigits2 digits2_pos]; intros; split; lia.
Qed.

Lemma iter_shr_1_digits k : forall mrs,
  Z.pos k < Zdigits2 (shr_m mrs) -> 0 < shr_m mrs ->
  0 < shr_m (SpecFloat.iter_pos shr_1 k mrs) /\
  Zdigits2 (shr_m (SpecFloat.iter_pos shr_1 k mrs)) = Zdigits2 (shr_m mrs) - Z.pos k.
Proof.
  induction k as [k IH|k IH|]; intros mrs Hd Hm; cbn [SpecFloat.iter_pos].
  - destruct (shr_1_digits mrs) as [H1 H2]; [lia | lia | ].
    destruct (IH (shr_1 mrs)) as [H3 H4]; [lia | lia | ].
    destruct (IH (SpecFloat.iter_pos shr_1 k (shr_1 mrs))) as [H5 H6];
      [lia | lia | ].
    split; [assumption | lia].
  - destruct (IH mrs) as [H3 H4]; [lia | lia | ].
    destruct (IH (SpecFloat.iter_pos shr_1 k mrs)) as [H5 H6]; [lia | lia | ].
    split; [assumption | lia].
  - apply shr_1_digits; lia.
Qed.


(** Above the smallest exponent, the shift that rounding performs keeps at
    least one digit of a positive mantissa and leaves at most [prec]. *)
Lemma shr_fexp_pos (m : positive) e l :
  emin <= e ->
  let '(mrs, e') := shr_fexp prec emax (Z.pos m) e l in
  0 < shr_m mrs /\ e <= e' /\ Zdigits2 (shr_m mrs) <= prec.
Proof.
  intros He. unfold shr_fexp, shr.
  pose proof (eq_refl : prec = 53) as Hprec.
  pose proof (eq_refl : emin = -1074) as Hemin.
  set (mrs0 := shr_record_of_loc (Z.pos m) l).
  assert (Hm0 : shr_m mrs0 = Z.pos m) by (unfold mrs0; destruct l as [|[]]; reflexivity).
  set (d := Zdigits2 (Z.pos m)).
  assert (Hd : 0 < d) by (unfold d; simpl; lia).
  unfold SpecFloat.fexp.
  destruct (Z.max (d + e - prec) emin - e) as [|k|k] eqn:Hk.
  - rewrite Hm0. fold d. repeat split; lia.
  - destruct (iter_shr_1_digits k mrs0) as [H1 H2];
      [rewrite Hm0; fold d; lia | rewrite Hm0; lia | ].
    rewrite Hm0 in H2. fold d in H2. repeat split; lia.
  - rewrite Hm0. fold d. repeat split; lia.
Qed.

Lemma round_nearest_even_pos m l : 0 < m -> 0 < round_nearest_even m l.
Proof.
  intros H. destruct l as [|[]]; simpl; try lia.
  destruct (Z.even m); lia.
Qed.

Lemma binary_round_aux_nonzero s (m : positive) e l :
  emin <= e -> nonzero_above e (binary_round_aux prec emax s (Z.pos m) e l).
Proof.
  intros He. unfold binary_round_aux.
  pose proof (shr_fexp_pos m e l He) as H1.
  destruct (shr_fexp prec emax (Z.pos m) e l) as [mrs1 e1].
  destruct H1 as (Hp1 & He1 & _).
  pose proof (round_nearest_even_pos (shr_m mrs1) (loc_of_shr_record mrs1) Hp1) as Hr.
  destruct (round_nearest_even (shr_m mrs1) (loc_of_shr_record mrs1)) as [|m2|m2]; try lia.
  pose proof (shr_fexp_pos m2 e1 loc_Exact ltac:(lia)) as H2.
  destruct (shr_fexp prec emax (Z.pos m2) e1 loc_Exact) as [mrs2 e2].
  destruct H2 as (Hp2 & He2 & Hd2).
  destruct (shr_m mrs2) as [|m3|m3]; try lia.
  destruct (e2 <=? emax - prec); simpl; auto.
  simpl in Hd2. split; lia.
Qed.

Lemma nonzero_above_weaken lo lo' x :
  lo' <= lo -> nonzero_above lo x -> nonzero_above lo' x.
Proof. destruct x; simpl; intuition lia. Qed.

Lemma binary_round_nonzero s (m : positive) e :
  emin + 52 <= e -> nonzero_above (e - 52) (binary_round prec emax s m e).
Proof.
  intros He. unfold binary_round, shl_align.
  pose proof (eq_refl : prec = 53) as Hprec.
  destruct (fexp prec emax (Z.pos (digits2_pos m) + e) - e) as [|k|k] eqn:Hk.
  - eapply nonzero_above_weaken; [| apply binary_round_aux_nonzero]; lia.
  - eapply nonzero_above_weaken; [| apply binary_round_aux_nonzero]; lia.
  - unfold SpecFloat.fexp in *. fold emin in *.
    eapply nonzero_above_weaken; [| apply binary_round_aux_nonzero]; lia.
Qed.

Lemma SFeqb_nonzero lo x s : nonzero_above lo x -> SFeqb x (S754_zero s) = false.
Proof. destruct x as [| [] | | [] ? ?]; simpl; intros; try reflexivity; tauto. Qed.

Lemma nonzero_above_opp lo x : nonzero_above lo x -> nonzero_above lo (SFopp x).
Proof. destruct x; simpl; auto. Qed.

Lemma small_mantissa (m : positive) :
  Z.pos (digits2_pos m) <= prec -> Z.pos m mod Uint63.wB = Z.pos m.
Proof.
  intros H. apply Z.mod_small. split; [lia|].
  rewrite digits2_pos_size in H.
  pose proof (Pos.size_gt m) as Hg.
  assert (Z.pos m < 2 ^ Z.pos (Pos.size m)) by (rewrite <- Pos2Z.inj_pow; lia).
  assert (2 ^ Z.pos (Pos.size m) <= 2 ^ 53).
  { apply Z.pow_le_mono_r; [lia|]. change prec with 53 in H. lia. }
  change Uint63.wB with (2 ^ 63). 
  assert (2 ^ 53 < 2 ^ 63) by (apply Z.pow_lt_mono_r; lia).
  lia.
Qed.

(** The conversion of a nonzero [int] is not zero. *)
Lemma Prim2SF_float_of_Z z :
  z <> 0 -> nonzero_above (emin + 52) (Prim2SF (float_of_Z z)).
Proof.
  intros Hz. unfold float_of_Z, binary_normalize.
  assert (H : forall s p,
    nonzero_above (emin + 52) (Prim2SF (SF2Prim (binary_round prec emax s p 0)))).
  { intros s p.
    pose proof (binary_round_nonzero s p 0 ltac:(change emin with (-1074); lia)) as Hr.
    destruct (binary_round prec emax s p 0) as [| s' | | s' m e]; try contradiction.
    - destruct s'; exact I.
    - destruct Hr as [Hd He]. unfold SF2Prim.
      assert (Hf : nonzero_above (emin + 52)
                (Prim2SF (Z.ldexp (of_uint63 (Uint63.of_Z (Z.pos m))) e))).
      { rewrite Z_ldexp_spec, of_uint63_spec, Uint63.of_Z_spec, small_mantissa by assumption.
        unfold binary_normalize.
        pose proof (binary_round_nonzero false m 0 ltac:(change emin with (-1074); lia)) as Hr'.
        destruct (binary_round prec emax false m 0) as [| s'' | | s'' m' e']; try contradiction.
        - exact I.
        - destruct Hr' as [Hd' He']. unfold SFldexp.
          eapply nonzero_above_weaken; [| apply binary_round_nonzero].
          + change emin with (-1074) in *. lia.
          + change emin with (-1074) in *. lia. }
      destruct s'; [rewrite opp_spec; apply nonzero_above_opp|]; exact Hf. }
  destruct z as [|p|p]; [congruence | apply H | apply H].
Qed.

Lemma float_of_Z_nonzero z : z <> 0 -> (float_of_Z z =? 0)%float = false.
Proof.
  intros Hz. rewrite FloatAxioms.eqb_spec.
  change (Prim2SF 0) with (S754_zero false).
  eapply SFeqb_nonzero, Prim2SF_float_of_Z, Hz.
Qed.

(** [overflow_threshold] is where the conversion of an [int] stops being
    finite, on both sides of zero. *)
Lemma overflow_threshold_sharp :
  finite_value (float_of_Z (overflow_threshold - 1)) = true
  /\ float_of_Z overflow_threshold = infinity
  /\ finite_value (float_of_Z (1 - overflow_threshold)) = true
  /\ float_of_Z (- overflow_threshold) = neg_infinity.
Proof. repeat split; vm_compute; reflexivity. Qed.

(** The quotient of two [int]s is rounded once: it agrees with the binary64
    division on operands that are binary64 numbers themselves, is exact
    beyond them, and is out of range as a whole, not operand by operand. *)
Lemma int_truediv_examples :
  SF2Prim (int_truediv 1 3) = (1 / 3)%float
  /\ SF2Prim (int_truediv (-10) 4) = (-2.5)%float
  /\ SF2Prim (int_truediv (10 ^ 400) (10 ^ 399)) = 10%float
  /\ int_truediv (10 ^ 400) 3 = S754_infinity false
  /\ SF2Prim (int_truediv 1 (10 ^ 400)) = 0%float
  /\ SF2Prim (int_truediv 0 (-5)) = (-0)%float.
Proof. repeat split; vm_compute; reflexivity. Qed.

Lemma eqb_zero_inv x :
  (x =? 0)%float = true -> exists s, Prim2SF x = S754_zero s.
Proof.
  rewrite FloatAxioms.eqb_spec. change (Prim2SF 0) with (S754_zero false).
  destruct (Prim2SF x) as [s | s | | s m e]; cbn; try discriminate.
  - eauto.
  - destruct s; discriminate.
  - destruct s; discriminate.
Qed.

Lemma eqb_zero_intro x s : Prim2SF x = S754_zero s -> (x =? 0)%float = true.
Proof.
  intros H. rewrite FloatAxioms.eqb_spec, H. reflexivity.
Qed.

(** Comparing with an observation that is zero is comparing with zero. *)
Lemma ltb_zero_r u o : (o =? 0)%float = true -> (u <? o)%float = (u <? 0)%float.
Proof.
  intros H. destruct (eqb_zero_inv o H) as [s Hs].
  rewrite !FloatAxioms.ltb_spec, Hs. change (Prim2SF 0) with (S754_zero false).
  destruct (Prim2SF u); reflexivity.
Qed.

Lemma ltb_zero_l l o : (o =? 0)%float = true -> (o <? l)%float = (0 <? l)%float.
Proof.
  intros H. destruct (eqb_zero_inv o H) as [s Hs].
  rewrite !FloatAxioms.ltb_spec, Hs. reflexivity.
Qed.

(** A zero is neither below nor above zero. *)
Lemma zero_not_ltb_zero x : (x =? 0)%float = true -> (x <? 0)%float = false.
Proof.
  intros H. destruct (eqb_zero_inv x H) as [s Hs].
  rewrite FloatAxioms.ltb_spec, Hs. reflexivity.
Qed.

Lemma zero_not_gtb_zero x : (x =? 0)%float = true -> (0 <? x)%float = false.
Proof.
  intros H. destruct (eqb_zero_inv x H) as [s Hs].
  rewrite FloatAxioms.ltb_spec, Hs. reflexivity.
Qed.

(** [x - x] is [+0.0] for every finite [x]. *)
Lemma sub_self x : finite_value x = true -> (x - x = 0)%float.
Proof.
  unfold finite_value. intros H. apply Prim2SF_inj.
  rewrite FloatAxioms.sub_spec. change (Prim2SF 0) with (S754_zero false).
  destruct (Prim2SF x) as [s | s | | s m e]; try discriminate.
  - destruct s; reflexivity.
  - unfold SF64sub, SFsub. rewrite Z.sub_diag. reflexivity.
Qed.

(** ** Indexing and counting loops *)

Lemma getitem_at v i : (i < length v)%nat -> getitem v i = Ok (at_index v i).
Proof.
  intros H. unfold getitem, at_index.
  rewrite (nth_error_nth' v 0%float H). reflexivity.
Qed.

Lemma getitem_scale c v i :
  (i < length v)%nat ->
  getitem (scale_by c v) i = Ok (c * at_index v i)%float.
Proof.
  intros H. unfold getitem, scale_by, at_index.
  rewrite nth_error_map, (nth_error_nth' v 0%float H). reflexivity.
Qed.

(** ** Conversions of [int]s *)

Lemma threshold_above_sizes : 2 ^ 64 < overflow_threshold.
Proof. vm_compute. reflexivity. Qed.

(** An [int] of the magnitude of a size converts to a float. *)
Lemma small_converts z : Z.abs z <= 2 ^ 64 -> float_overflows z = false.
Proof.
  intros H. unfold float_overflows. apply Z.leb_gt.
  pose proof threshold_above_sizes. lia.
Qed.

Lemma max_size_small : max_size < 2 ^ 63.
Proof. vm_compute. reflexivity. Qed.

Lemma len_bounds {A} (l : list A) : 0 <= len l <= max_size.
Proof.
  assert (0 <= max_size) by (vm_compute; discriminate).
  unfold len. lia.
Qed.

(** A difference of sizes, less one or not, converts to a float. *)
Lemma size_difference_converts a b c :
  0 <= a <= max_size -> 0 <= b <= max_size -> 0 <= c <= 1 ->
  float_overflows (a - b - c) = false.
Proof.
  intros Ha Hb Hc. pose proof max_size_small.
  assert (2 ^ 63 < 2 ^ 64) by (vm_compute; reflexivity).
  apply small_converts. lia.
Qed.

Lemma num_to_float_ok a :
  num_overflows a = false -> num_to_float a = Ok (to_float a).
Proof.
  destruct a as [z|x|x]; cbn [num_overflows num_to_float to_float];
    intros H; rewrite ?H; reflexivity.
Qed.

Lemma np_scale_ok c v :
  num_overflows c = false -> np_scale c v = Ok (scale_by (to_float c) v).
Proof.
  intros H. unfold np_scale. rewrite (num_to_float_ok c H). reflexivity.
Qed.

Lemma np_scale_overflow c v :
  num_overflows c = true -> np_scale c v = Raise OverflowError.
Proof.
  destruct c as [z|x|x]; cbn [num_overflows]; intros H; try discriminate.
  unfold np_scale. cbn [num_to_float]. rewrite H. reflexivity.
Qed.

(** [c / float(z)] for a count [c] out of [z], [z] the size of an array at
    most. *)
Lemma py_ratio_of_counts c z :
  0 <= c <= z -> z <= max_size ->
  py_ratio c z
  = if z =? 0 then Raise ZeroDivisionError
    else Ok (PyFloat (float_of_Z c / float_of_Z z)%float).
Proof.
  intros Hc Hz. pose proof max_size_small as Hm.
  assert (H64 : 2 ^ 63 < 2 ^ 64) by (vm_compute; reflexivity).
  unfold py_ratio, py_float. cbn [num_to_float].
  rewrite (small_converts z) by lia. cbn [bind].
  unfold num_truediv. cbn [num_to_float].
  rewrite (small_converts c) by lia. cbn [bind is_np orb].
  destruct (Z.eqb_spec z 0) as [->|Hne].
  - reflexivity.
  - rewrite float_of_Z_nonzero by assumption. reflexivity.
Qed.

(** ** Counting loops *)

Lemma count_cons (P : nat -> bool) i idx :
  count P (i :: idx) = Z.b2z (P i) + count P idx.
Proof.
  unfold count. simpl. destruct (P i); simpl length; simpl Z.b2z; lia.
Qed.

Lemma count_bounds (P : nat -> bool) idx :
  0 <= count P idx <= Z.of_nat (length idx).
Proof.
  unfold count. pose proof (filter_length_le P idx). lia.
Qed.

Lemma count_mono (P Q : nat -> bool) idx :
  (forall i, P i = true -> Q i = true) -> count P idx <= count Q idx.
Proof.
  intros H. induction idx as [|i idx IH]; [reflexivity|].
  rewrite !count_cons. specialize (H i).
  destruct (P i); [rewrite H by reflexivity|destruct (Q i)]; cbn [Z.b2z]; lia.
Qed.

(** A loop whose body only advances two counters counts the indices that
    advance each of them. *)
Lemma for_each_counts (body : counters -> nat -> result counters)
    (P Q : nat -> bool) (idx : list nat) :
  (forall i a b, In i idx ->
     body (a, b) i = Ok (a + Z.b2z (P i), b + Z.b2z (Q i))) ->
  forall a b,
    for_each body idx (a, b) = Ok (a + count P idx, b + count Q idx).
Proof.
  induction idx as [|i idx IH]; intros Hbody a b.
  - unfold count. cbn [for_each filter length Z.of_nat]. rewrite !Z.add_0_r.
    reflexivity.
  - cbn [for_each]. rewrite Hbody by (left; reflexivity). cbn [bind].
    rewrite IH by (intros; apply Hbody; right; assumption).
    rewrite !count_cons, !Z.add_assoc. reflexivity.
Qed.

Lemma filter_none {A} (P : A -> bool) l :
  (forall x, In x l -> P x = false) -> filter P l = [].
Proof.
  induction l as [|x l IH]; intros H; [reflexivity|].
  simpl. rewrite H by (left; reflexivity).
  apply IH. intros; apply H; right; assumption.
Qed.

Lemma count_indices_none N P :
  (forall i, (i < N)%nat -> P i = false) -> count_indices N P = 0.
Proof.
  intros H. unfold count_indices, count. rewrite filter_none; [reflexivity|].
  intros i Hi. apply in_seq in Hi. apply H. lia.
Qed.

Lemma count_indices_bounds N P : 0 <= count_indices N P <= Z.of_nat N.
Proof.
  unfold count_indices. pose proof (count_bounds P (seq 0 N)) as H.
  rewrite length_seq in H. exact H.
Qed.

(** The counted observations are among the observations of their kind. *)
Lemma false_positives_among_zeros y_obs y_pred upper_ci lower_ci sigmas :
  0 <= false_positive_count y_obs y_pred upper_ci lower_ci sigmas
    <= zero_observations y_obs.
Proof.
  split; [apply count_indices_bounds|].
  apply count_mono. intros i H. unfold is_false_positive in H.
  apply andb_true_iff in H. tauto.
Qed.

Lemma false_negatives_among_nonzeros y_obs y_pred upper_ci lower_ci sigmas :
  0 <= false_negative_count y_obs y_pred upper_ci lower_ci sigmas
    <= nonzero_observations y_obs.
Proof.
  split; [apply count_indices_bounds|].
  apply (count_mono _ (fun i => negb (is_zero_obs y_obs i))).
  intros i H. unfold is_false_negative in H.
  apply andb_true_iff in H. tauto.
Qed.

Section Rates.

Variables y_obs y_pred upper_ci lower_ci : vector.
Variable sigmas : num.
Hypothesis len_pred : length y_pred = length y_obs.
Hypothesis len_upper : length upper_ci = length y_obs.
Hypothesis len_lower : length lower_ci = length y_obs.

Lemma false_positive_body_counts i a b :
  (i < length y_obs)%nat ->
  false_positive_body y_obs y_pred (scale_by (to_float sigmas) upper_ci)
    (scale_by (to_float sigmas) lower_ci) (a, b) i
  = Ok (a + Z.b2z (is_zero_obs y_obs i),
        b + Z.b2z (is_false_positive y_obs y_pred upper_ci lower_ci sigmas i)).
Proof.
  intros Hi. unfold false_positive_body, is_false_positive, is_zero_obs.
  rewrite !(getitem_at y_obs i), !(getitem_at y_pred i),
    !(getitem_scale (to_float sigmas) upper_ci i),
    !(getitem_scale (to_float sigmas) lower_ci i)
    by lia.
  cbn [bind].
  destruct (at_index y_obs i =? 0)%float eqn:Hz.
  - cbn [bind].
    unfold excludes_zero, scaled_lower, scaled_upper.
    rewrite (ltb_zero_r _ _ Hz), (ltb_zero_l _ _ Hz).
    destruct (_ <? 0)%float; [reflexivity|].
    destruct (0 <? _)%float; cbn [bind orb andb Z.b2z];
      rewrite ?Z.add_0_r; reflexivity.
  - cbn [Z.b2z andb]. rewrite !Z.add_0_r. reflexivity.
Qed.

Lemma false_negative_body_counts i a b :
  (i < length y_obs)%nat ->
  false_negative_body y_obs y_pred (scale_by (to_float sigmas) upper_ci)
    (scale_by (to_float sigmas) lower_ci) (a, b) i
  = Ok (a + Z.b2z (negb (is_zero_obs y_obs i)),
        b + Z.b2z (is_false_negative y_obs y_pred upper_ci lower_ci sigmas i)).
Proof.
  intros Hi. unfold false_negative_body, is_false_negative, is_zero_obs.
  rewrite !(getitem_at y_obs i), !(getitem_at y_pred i),
    !(getitem_scale (to_float sigmas) upper_ci i),
    !(getitem_scale (to_float sigmas) lower_ci i)
    by lia.
  cbn [bind].
  destruct (at_index y_obs i =? 0)%float eqn:Hz; cbn [negb].
  - cbn [Z.b2z andb]. rewrite !Z.add_0_r. reflexivity.
  - cbn [bind].
    unfold strictly_contains_zero, scaled_lower, scaled_upper.
    destruct (_ && _); cbn [andb Z.b2z]; rewrite ?Z.add_0_r; reflexivity.
Qed.

(** An [int] [sigmas] beyond the float range stops both rates at
    [sigmas * upper_ci], before the loop. *)
Lemma false_positive_rate_overflow :
  num_overflows sigmas = true ->
  false_positive_rate y_obs y_pred upper_ci lower_ci sigmas
  = Raise OverflowError.
Proof.
  intros H. unfold false_positive_rate.
  rewrite len_pred, len_upper, !Nat.eqb_refl. cbn [negb orb].
  rewrite (np_scale_overflow sigmas upper_ci H). reflexivity.
Qed.

Lemma false_negative_rate_overflow :
  num_overflows sigmas = true ->
  false_negative_rate y_obs y_pred upper_ci lower_ci sigmas
  = Raise OverflowError.
Proof.
  intros H. unfold false_negative_rate.
  rewrite len_pred, len_upper, !Nat.eqb_refl. cbn [negb orb].
  rewrite (np_scale_overflow sigmas upper_ci H). reflexivity.
Qed.

(** On arrays of one length, with a [sigmas] that converts to a float, the
    two rates are the quotients of the counts of the specification, divided
    the way Python divides. *)
Lemma false_positive_rate_counts :
  num_overflows sigmas = false ->
  false_positive_rate y_obs y_pred upper_ci lower_ci sigmas
  = py_ratio (false_positive_count y_obs y_pred upper_ci lower_ci sigmas)
      (zero_observations y_obs).
Proof.
  intros Hc. unfold false_positive_rate.
  rewrite len_pred, len_upper, !Nat.eqb_refl. cbn [negb orb].
  rewrite !(np_scale_ok sigmas) by assumption. cbn [bind].
  unfold for_range.
  rewrite (for_each_counts _ (is_zero_obs y_obs)
             (is_false_positive y_obs y_pred upper_ci lower_ci sigmas)).
  - reflexivity.
  - intros i a b Hi. apply in_seq in Hi.
    apply false_positive_body_counts. lia.
Qed.

Lemma false_negative_rate_counts :
  num_overflows sigmas = false ->
  false_negative_rate y_obs y_pred upper_ci lower_ci sigmas
  = py_ratio (false_negative_count y_obs y_pred upper_ci lower_ci sigmas)
      (nonzero_observations y_obs).
Proof.
  intros Hc. unfold false_negative_rate.
  rewrite len_pred, len_upper, !Nat.eqb_refl. cbn [negb orb].
  rewrite !(np_scale_ok sigmas) by assumption. cbn [bind].
  unfold for_range.
  rewrite (for_each_counts _ (fun i => negb (is_zero_obs y_obs i))
             (is_false_negative y_obs y_pred upper_ci lower_ci sigmas)).
  - reflexivity.
  - intros i a b Hi. apply in_seq in Hi.
    apply false_negative_body_counts. lia.
Qed.

Hypothesis obs_sized : sized y_obs = true.

Lemma false_positive_rate_quotient :
  false_positive_rate y_obs y_pred upper_ci lower_ci sigmas
  = if num_overflows sigmas then Raise OverflowError
    else if zero_observations y_obs =? 0 then Raise ZeroDivisionError
    else Ok (PyFloat
           (float_of_Z (false_positive_count y_obs y_pred upper_ci lower_ci
                          sigmas)
            / float_of_Z (zero_observations y_obs))%float).
Proof.
  destruct (num_overflows sigmas) eqn:Hc;
    [apply false_positive_rate_overflow; assumption|].
  rewrite false_positive_rate_counts by assumption.
  apply py_ratio_of_counts.
  - apply false_positives_among_zeros.
  - pose proof (count_indices_bounds (length y_obs) (is_zero_obs y_obs)).
    unfold sized in obs_sized. apply Z.leb_le in obs_sized.
    unfold zero_observations. lia.
Qed.

Lemma false_negative_rate_quotient :
  false_negative_rate y_obs y_pred upper_ci lower_ci sigmas
  = if num_overflows sigmas then Raise OverflowError
    else if nonzero_observations y_obs =? 0 then Raise ZeroDivisionError
    else Ok (PyFloat
           (float_of_Z (false_negative_count y_obs y_pred upper_ci lower_ci
                          sigmas)
            / float_of_Z (nonzero_observations y_obs))%float).
Proof.
  destruct (num_overflows sigmas) eqn:Hc;
    [apply false_negative_rate_overflow; assumption|].
  rewrite false_negative_rate_counts by assumption.
  apply py_ratio_of_counts.
  - apply false_negatives_among_nonzeros.
  - pose proof (count_indices_bounds (length y_obs)
                  (fun i => negb (is_zero_obs y_obs i))).
    unfold sized in obs_sized. apply Z.leb_le in obs_sized.
    unfold nonzero_observations. lia.
Qed.

End Rates.

(** ** The false positive and false negative rates *)

Lemma count_indices_pos N P i :
  (i < N)%nat -> P i = true -> 0 < count_indices N P.
Proof.
  intros Hi HP. unfold count_indices, count.
  assert (Hin : In i (filter P (seq 0 N))).
  { apply filter_In. split; [apply in_seq; lia | assumption]. }
  destruct (filter P (seq 0 N)); [contradiction | simpl length; lia].
Qed.

Lemma some_zero_observation y :
  existsb equals_zero y = true -> 0 < zero_observations y.
Proof.
  intros H. apply existsb_exists in H. destruct H as (x & Hin & Hx).
  destruct (In_nth y x 0%float Hin) as (i & Hi & Hnth).
  apply (count_indices_pos _ _ i Hi).
  unfold is_zero_obs, at_index. rewrite Hnth. exact Hx.
Qed.

Lemma no_zero_observation y :
  existsb equals_zero y = false -> zero_observations y = 0.
Proof.
  intros H. apply count_indices_none. intros i Hi.
  exact (existsb_nth equals_zero y 0%float Hi H).
Qed.

Lemma no_nonzero_observation y :
  forallb equals_zero y = true -> nonzero_observations y = 0.
Proof.
  intros H. apply count_indices_none. intros i Hi.
  rewrite forallb_forall in H. unfold is_zero_obs, at_index.
  change (negb (equals_zero (nth i y 0%float)) = false).
  rewrite H by (apply nth_In; assumption). reflexivity.
Qed.

(** C3, as the code has it: on arrays of one length with at least one
    observation equal to zero, [false_positive_rate] returns [c / z] when
    [sigmas] is a float or an [int] within the float range, and raises
    [OverflowError] at [sigmas * upper_ci] when [sigmas] is an [int] beyond
    it; [z] is the number of indices whose observation is zero, [c] the
    number of those whose scaled interval excludes zero.  On the example of
    the specification the rate is 0.5.  ([sized]: no array of Python has more
    than [sys.maxsize] elements.) *)
Theorem false_positive_rate_is_ratio
    (y_obs y_pred upper_ci lower_ci : vector) (sigmas : num) :
  length y_pred = length y_obs ->
  length upper_ci = length y_obs ->
  length lower_ci = length y_obs ->
  sized y_obs = true ->
  existsb equals_zero y_obs = true ->
  false_positive_rate y_obs y_pred upper_ci lower_ci sigmas
  = (if num_overflows sigmas then Raise OverflowError
     else Ok (PyFloat
            (float_of_Z (false_positive_count y_obs y_pred upper_ci lower_ci sigmas)
             / float_of_Z (zero_observations y_obs))%float))
  /\ false_positive_rate
       [0; 0; 1; 2]%float [0x1.999999999999ap-4; 5; 1; 2]%float
       [1; 1; 1; 1]%float [1; 1; 1; 1]%float (PyInt 2)
     = Ok (PyFloat 0.5%float).
Proof.
  intros Hp Hu Hl Hs Hz. split; [|vm_compute; reflexivity].
  rewrite false_positive_rate_quotient by assumption.
  apply some_zero_observation in Hz.
  destruct (Z.eqb_spec (zero_observations y_obs) 0); [lia | reflexivity].
Qed.

Lemma false_positive_rate_is_ratio_witness :
  false_positive_rate [0; 5; 0]%float [1; 5; 3]%float [1; 1; 1]%float
    [1; 1; 1]%float (PyInt 2)
  = Ok (PyFloat 0.5%float).
Proof.
  pose proof (proj1 (false_positive_rate_is_ratio
                       [0; 5; 0]%float [1; 5; 3]%float [1; 1; 1]%float
                       [1; 1; 1]%float (PyInt 2)
                       eq_refl eq_refl eq_refl eq_refl eq_refl)) as H.
  vm_compute in H. vm_compute. exact H.
Defined.

(** C3 fails as stated: on the arrays of the specification's example, with
    the [int] [10 ** 400] for [sigmas], [sigmas * upper_ci] raises
    [OverflowError] and no rate is returned. *)
Lemma false_positive_rate_overflowing_sigmas :
  false_positive_rate
    [0; 0; 1; 2]%float [0x1.999999999999ap-4; 5; 1; 2]%float
    [1; 1; 1; 1]%float [1; 1; 1; 1]%float (PyInt (10 ^ 400))
  = Raise OverflowError.
Proof. vm_compute. reflexivity. Qed.

(** C5, as the code has it: on arrays of one length, [false_positive_rate]
    raises when no observation is zero, and [false_negative_rate] raises when
    every observation is zero.  When [sigmas] is a float or an [int] within
    the float range, what they raise is [ZeroDivisionError], at the final
    division; when it is an [int] beyond the float range and there is an
    observation, both raise [OverflowError] at [sigmas * upper_ci], whatever
    the observations. *)
Theorem false_rates_zero_division
    (y_obs y_pred upper_ci lower_ci : vector) (sigmas : num) :
  length y_pred = length y_obs ->
  length upper_ci = length y_obs ->
  length lower_ci = length y_obs ->
  (num_overflows sigmas = false ->
   (existsb equals_zero y_obs = false ->
    false_positive_rate y_obs y_pred upper_ci lower_ci sigmas
    = Raise ZeroDivisionError)
   /\ (forallb equals_zero y_obs = true ->
       false_negative_rate y_obs y_pred upper_ci lower_ci sigmas
       = Raise ZeroDivisionError))
  /\ (num_overflows sigmas = true -> y_obs <> [] ->
      false_positive_rate y_obs y_pred upper_ci lower_ci sigmas
      = Raise OverflowError
      /\ false_negative_rate y_obs y_pred upper_ci lower_ci sigmas
         = Raise OverflowError).
Proof.
  intros Hp Hu Hl. split; intros Hc.
  2:{ intros _. split;
        [apply false_positive_rate_overflow | apply false_negative_rate_overflow];
        assumption. }
  split; intros Hz.
  - rewrite false_positive_rate_counts by assumption.
    pose proof (false_positives_among_zeros y_obs y_pred upper_ci lower_ci
                  sigmas) as Hb.
    rewrite (no_zero_observation _ Hz) in *.
    replace (false_positive_count y_obs y_pred upper_ci lower_ci sigmas)
      with 0 by lia.
    reflexivity.
  - rewrite false_negative_rate_counts by assumption.
    pose proof (false_negatives_among_nonzeros y_obs y_pred upper_ci lower_ci
                  sigmas) as Hb.
    rewrite (no_nonzero_observation _ Hz) in *.
    replace (false_negative_count y_obs y_pred upper_ci lower_ci sigmas)
      with 0 by lia.
    reflexivity.
Qed.

Lemma false_rates_zero_division_witness :
  false_positive_rate [1; 2]%float [1; 0]%float [1; 1]%float [1; 1]%float
    (PyInt 2) = Raise ZeroDivisionError
  /\ false_negative_rate [0; 0]%float [1; 0]%float [1; 1]%float [1; 1]%float
       (PyInt 2) = Raise ZeroDivisionError
  /\ false_negative_rate [1; 2]%float [1; 0]%float [1; 1]%float [1; 1]%float
       (PyInt (10 ^ 400)) = Raise OverflowError.
Proof.
  split; [|split].
  - apply (false_rates_zero_division
             [1; 2]%float [1; 0]%float [1; 1]%float [1; 1]%float
             (PyInt 2) eq_refl eq_refl eq_refl); reflexivity.
  - apply (false_rates_zero_division
             [0; 0]%float [1; 0]%float [1; 1]%float [1; 1]%float
             (PyInt 2) eq_refl eq_refl eq_refl); reflexivity.
  - apply (false_rates_zero_division
             [1; 2]%float [1; 0]%float [1; 1]%float [1; 1]%float
             (PyInt (10 ^ 400)) eq_refl eq_refl eq_refl);
      [vm_compute; reflexivity | discriminate].
Defined.

(** C5 fails as stated: with the [int] [10 ** 400] for [sigmas] the two rates
    fail on these arrays, but with [OverflowError] at [sigmas * upper_ci],
    before any count is divided. *)
Lemma false_rates_overflow_before_division :
  false_positive_rate [1; 2]%float [1; 0]%float [1; 1]%float [1; 1]%float
    (PyInt (10 ^ 400)) = Raise OverflowError
  /\ false_negative_rate [0; 0]%float [1; 0]%float [1; 1]%float [1; 1]%float
       (PyInt (10 ^ 400)) = Raise OverflowError.
Proof. split; vm_compute; reflexivity. Qed.

(** C10: on arrays of one length, for a [sigmas] that converts to a float,
    [false_negative_rate] divides the number of nonzero observations whose
    scaled interval has zero strictly inside ([lower < 0 < upper]) by the
    number of nonzero observations; an index at which an end of the scaled
    interval is exactly zero is not counted: the loop body leaves the counter
    of false negatives as it was.  ([sized]: no array of Python has more than
    [sys.maxsize] elements.) *)
Theorem false_negative_needs_strict_containment
    (y_obs y_pred upper_ci lower_ci : vector) (sigmas : num) :
  length y_pred = length y_obs ->
  length upper_ci = length y_obs ->
  length lower_ci = length y_obs ->
  sized y_obs = true ->
  num_overflows sigmas = false ->
  false_negative_rate y_obs y_pred upper_ci lower_ci sigmas
  = (if nonzero_observations y_obs =? 0 then Raise ZeroDivisionError
     else Ok (PyFloat
            (float_of_Z (false_negative_count y_obs y_pred upper_ci lower_ci sigmas)
             / float_of_Z (nonzero_observations y_obs))%float))
  /\ forall i,
       (i < length y_obs)%nat ->
       (scaled_lower y_pred lower_ci sigmas i =? 0)%float = true
       \/ (scaled_upper y_pred upper_ci sigmas i =? 0)%float = true ->
       is_false_negative y_obs y_pred upper_ci lower_ci sigmas i = false
       /\ forall known_nonzeros false_negatives,
            exists known_nonzeros',
              false_negative_body y_obs y_pred
                (scale_by (to_float sigmas) upper_ci)
                (scale_by (to_float sigmas) lower_ci)
                (known_nonzeros, false_negatives) i
              = Ok (known_nonzeros', false_negatives).
Proof.
  intros Hp Hu Hl Hs Hc. split.
  - rewrite false_negative_rate_quotient by assumption.
    rewrite Hc. reflexivity.
  - intros i Hi Htouch.
    assert (Hnot : is_false_negative y_obs y_pred upper_ci lower_ci sigmas i
                   = false).
    { unfold is_false_negative, strictly_contains_zero.
      destruct Htouch as [H|H].
      - rewrite (zero_not_ltb_zero _ H), andb_false_r. reflexivity.
      - rewrite (zero_not_gtb_zero _ H), !andb_false_r. reflexivity. }
    split; [exact Hnot|].
    intros a b. eexists.
    rewrite false_negative_body_counts by assumption.
    rewrite Hnot. cbn [Z.b2z]. rewrite Z.add_0_r. reflexivity.
Qed.

Lemma false_negative_needs_strict_containment_witness :
  false_negative_rate [1; 3]%float [2; 0]%float [1; 1]%float [1; 1]%float
    (PyInt 2) = Ok (PyFloat 0.5%float)
  /\ is_false_negative [1; 3]%float [2; 0]%float [1; 1]%float [1; 1]%float
       (PyInt 2) 0 = false.
Proof.
  pose proof (false_negative_needs_strict_containment
                [1; 3]%float [2; 0]%float [1; 1]%float [1; 1]%float (PyInt 2)
                eq_refl eq_refl eq_refl eq_refl eq_refl) as [Hrate Htouch].
  split.
  - vm_compute in Hrate. vm_compute. exact Hrate.
  - exact (proj1 (Htouch 0%nat ltac:(simpl; lia) (or_introl eq_refl))).
Defined.

(** C4: the length of [lower_ci] is not checked.  With a longer [lower_ci] both
    functions return a rate; with a shorter one they raise [IndexError], not
    the error that names the mismatch. *)
Theorem lower_ci_length_unchecked :
  false_positive_rate [0]%float [1]%float [1]%float [1; 1]%float (PyInt 2)
  = Ok (PyFloat 0%float)
  /\ false_negative_rate [1]%float [1]%float [1]%float [1; 1]%float (PyInt 2)
     = Ok (PyFloat 1%float)
  /\ false_positive_rate [0]%float [1]%float [1]%float [] (PyInt 2)
     = Raise IndexError
  /\ false_negative_rate [1]%float [1]%float [1]%float [] (PyInt 2)
     = Raise IndexError.
Proof. repeat split; vm_compute; reflexivity. Qed.

(** A mismatch in [y_pred] or [upper_ci] does raise the error that names it. *)
Lemma checked_lengths_raise
    (y_obs y_pred upper_ci lower_ci : vector) (sigmas : num) :
  length y_pred <> length y_obs \/ length upper_ci <> length y_obs ->
  false_positive_rate y_obs y_pred upper_ci lower_ci sigmas = Raise size_error
  /\ false_negative_rate y_obs y_pred upper_ci lower_ci sigmas
     = Raise size_error.
Proof.
  intros H. unfold false_positive_rate, false_negative_rate.
  assert (E : negb (length y_obs =? length y_pred)%nat
              || negb (length y_obs =? length upper_ci)%nat = true).
  { destruct (Nat.eqb_spec (length y_obs) (length y_pred));
      destruct (Nat.eqb_spec (length y_obs) (length upper_ci));
      cbn; try reflexivity.
    destruct H; congruence. }
  rewrite E. split; reflexivity.
Qed.

(** ** The loop of [pearson] *)

Lemma setitem_app done z rest a :
  setitem (done ++ z :: rest) (length done) a = Ok (done ++ a :: rest).
Proof.
  induction done as [|h done IH]; [reflexivity|].
  cbn [app length setitem]. rewrite IH. reflexivity.
Qed.

Lemma pearson_loop x y xbar ybar m : forall k done todo,
  length done = k -> length todo = m ->
  (k + m <= length x)%nat -> (k + m <= length y)%nat ->
  for_each (pearson_body x y xbar ybar) (seq k m) (done ++ todo)
  = Ok (done ++ map (pearson_term x y xbar ybar) (seq k m)).
Proof.
  induction m as [|m IH]; intros k done todo Hd Ht Hx Hy.
  - destruct todo; [|discriminate]. reflexivity.
  - destruct todo as [|z todo]; [discriminate|].
    cbn [seq for_each map]. unfold pearson_body at 1.
    rewrite (getitem_at x k), (getitem_at y k) by lia. cbn [bind].
    rewrite <- Hd at 1. rewrite setitem_app. cbn [bind].
    change (done ++ ?a :: todo) with (done ++ [a] ++ todo).
    rewrite app_assoc, (IH (S k) (done ++ [_]) todo).
    + rewrite <- app_assoc. reflexivity.
    + rewrite length_app. simpl. lia.
    + simpl in Ht. lia.
    + lia.
    + lia.
Qed.

Lemma map_at_index (g : float -> float) (v : vector) :
  map (fun i => g (at_index v i)) (seq 0 (length v)) = map g v.
Proof.
  induction v as [|a v IH]; [reflexivity|].
  cbn [length seq map]. unfold at_index at 1. cbn [nth]. f_equal.
  rewrite <- seq_shift, map_map. exact IH.
Qed.

Lemma pearson_terms np_mean x y :
  (length x <= length y)%nat ->
  for_range (length x) (pearson_body x y (np_mean x) (np_mean y))
    (np_zeros (length x))
  = Ok (map (pearson_term x y (np_mean x) (np_mean y)) (seq 0 (length x))).
Proof.
  intros H. unfold for_range.
  apply (pearson_loop x y _ _ (length x) 0%nat [] (np_zeros (length x)));
    try reflexivity; try lia.
  apply repeat_length.
Qed.

(** ** Zero divisors in NumPy arithmetic *)

Lemma py_is_zero_to_float a :
  py_is_zero a = true -> exists s, Prim2SF (to_float a) = S754_zero s.
Proof.
  destruct a as [z|x|x]; cbn [py_is_zero to_float]; intros H.
  - apply Z.eqb_eq in H. subst z. exists false. reflexivity.
  - apply eqb_zero_inv, H.
  - apply eqb_zero_inv, H.
Qed.

Lemma sqrt_of_zero x s :
  Prim2SF x = S754_zero s -> Prim2SF (PrimFloat.sqrt x) = S754_zero s.
Proof. intros H. rewrite sqrt_spec, H. reflexivity. Qed.

Lemma mul_zero_l x y s :
  Prim2SF x = S754_zero s -> sf_zero_or_nan (Prim2SF (x * y)%float).
Proof.
  intros H. rewrite mul_spec, H. destruct (Prim2SF y); exact I.
Qed.

Lemma mul_zero_r x y s :
  Prim2SF y = S754_zero s -> sf_zero_or_nan (Prim2SF (x * y)%float).
Proof.
  intros H. rewrite mul_spec, H. destruct (Prim2SF x); exact I.
Qed.

(** Dividing by a zero or by a NaN gives an infinity or a NaN. *)
Lemma div_not_finite x y :
  sf_zero_or_nan (Prim2SF y) -> finite_value (x / y)%float = false.
Proof.
  unfold finite_value. rewrite div_spec.
  destruct (Prim2SF y); try contradiction; intros _;
    destruct (Prim2SF x); reflexivity.
Qed.

(** Zero divided by a number that is neither zero nor a NaN is a zero, and
    zero divided by zero is a NaN. *)
Lemma zero_div x y s :
  Prim2SF x = S754_zero s -> (y =? 0)%float = false -> not_nan y = true ->
  exists s', Prim2SF (x / y)%float = S754_zero s'.
Proof.
  intros Hx Hy Hn. rewrite div_spec, Hx.
  unfold not_nan in Hn.
  destruct (Prim2SF y) as [sy | sy | | sy m e] eqn:E; try discriminate.
  - rewrite (eqb_zero_intro _ _ E) in Hy. discriminate.
  - eexists; reflexivity.
  - eexists; reflexivity.
Qed.

Lemma zero_div_zero y : (y =? 0)%float = true -> (0 / y)%float = nan.
Proof.
  intros H. destruct (eqb_zero_inv y H) as [s Hs].
  apply Prim2SF_inj. rewrite div_spec, Hs. reflexivity.
Qed.

Lemma one_sub_zero q s : Prim2SF q = S754_zero s -> (1 - q)%float = 1%float.
Proof.
  intros H. apply Prim2SF_inj. rewrite FloatAxioms.sub_spec, H. reflexivity.
Qed.

(** A finite number other than zero divided by itself is exactly one. *)
Lemma div_core_self m e :
  SFdiv_core_binary prec emax (Zpos m) e (Zpos m) e = (2 ^ 53, -53, loc_Exact).
Proof.
  unfold SFdiv_core_binary.
  replace (Zdigits2 (Z.pos m) + e - (Zdigits2 (Z.pos m) + e)) with 0 by lia.
  replace (e - e) with 0 by lia.
  change (Z.min (fexp prec emax 0) 0) with (-53).
  change (0 - -53) with 53.
  cbv beta iota zeta.
  rewrite Z.shiftl_mul_pow2 by lia.
  assert (Hq : (Z.pos m * 2 ^ 53) / Z.pos m = 2 ^ 53)
    by (rewrite Z.mul_comm; apply Z_div_mult; lia).
  assert (Hr : (Z.pos m * 2 ^ 53) mod Z.pos m = 0)
    by (rewrite Z.mul_comm; apply Z_mod_mult).
  unfold Z.div, Z.modulo in Hq, Hr.
  destruct (Z.div_eucl (Z.pos m * 2 ^ 53) (Z.pos m)) as [q r].
  cbn [fst snd] in Hq, Hr. subst q r.
  unfold new_location, new_location_even, new_location_odd.
  destruct (Z.even (Z.pos m)); reflexivity.
Qed.

Lemma div_self x :
  finite_value x = true -> (x =? 0)%float = false -> (x / x = 1)%float.
Proof.
  unfold finite_value. intros Hf Hz. apply Prim2SF_inj. rewrite div_spec.
  destruct (Prim2SF x) as [s | s | | s m e] eqn:E; try discriminate.
  - rewrite (eqb_zero_intro _ _ E) in Hz. discriminate.
  - unfold SF64div, SFdiv. rewrite div_core_self.
    destruct s; vm_compute; reflexivity.
Qed.

(** ** Sums *)

Lemma py_sum_np (v : vector) : forall a,
  exists b, fold_left (fun acc x => num_add acc (NpFloat x)) v (NpFloat a)
            = NpFloat b.
Proof.
  induction v as [|x v IH]; intros a; [eexists; reflexivity|].
  cbn [fold_left]. apply IH.
Qed.

Lemma py_sum_nonempty (v : vector) :
  v <> [] -> py_sum v = NpFloat (to_float (py_sum v)).
Proof.
  destruct v as [|x v]; [congruence|]. intros _.
  unfold py_sum. cbn [fold_left].
  destruct (py_sum_np v (float_of_Z 0 + x)%float) as [b Hb].
  change (num_add (PyInt 0) (NpFloat x)) with (NpFloat (float_of_Z 0 + x)%float).
  rewrite Hb. reflexivity.
Qed.

(** The builtin [sum] adds from left to right, starting from the [int] [0]. *)
Lemma to_float_num_add acc x :
  to_float (num_add acc (NpFloat x)) = (to_float acc + x)%float.
Proof. destruct acc; reflexivity. Qed.

Lemma py_sum_fold (v : vector) : forall acc,
  to_float (fold_left (fun a x => num_add a (NpFloat x)) v acc)
  = fold_left PrimFloat.add v (to_float acc).
Proof.
  induction v as [|x v IH]; intros acc; [reflexivity|].
  cbn [fold_left]. rewrite IH, to_float_num_add. reflexivity.
Qed.

Lemma to_float_py_sum v : to_float (py_sum v) = fold_left PrimFloat.add v 0%float.
Proof. unfold py_sum. rewrite py_sum_fold. reflexivity. Qed.

(** The sum of squared deviations that the metrics compute. *)
Lemma sum_sq_dev_value np_mean v :
  to_float (sum_sq_dev np_mean v) = sq_dev_sum np_mean v.
Proof.
  unfold sum_sq_dev, sq_dev_sum. rewrite to_float_py_sum.
  unfold np_square, np_sub_scalar. rewrite map_map. reflexivity.
Qed.

(** A sum of floats is the [int] [0] or a float: it converts. *)
Lemma py_sum_converts (v : vector) : num_overflows (py_sum v) = false.
Proof.
  destruct v as [|x v]; [vm_compute; reflexivity|].
  rewrite py_sum_nonempty by discriminate. reflexivity.
Qed.

(** A division in which a NumPy scalar takes part, of operands that
    convert, raises nothing. *)
Lemma num_truediv_np a b :
  is_np a || is_np b = true ->
  num_overflows a = false -> num_overflows b = false ->
  num_truediv a b = Ok (NpFloat (to_float a / to_float b)%float).
Proof.
  intros Hnp Ha Hb. unfold num_truediv.
  rewrite (num_to_float_ok a Ha), (num_to_float_ok b Hb). cbn [bind].
  rewrite Hnp.
  destruct a, b; try reflexivity. discriminate.
Qed.

Lemma py_sum_zeros k :
  py_sum (repeat 0%float k)
  = match k with O => PyInt 0 | S _ => NpFloat 0%float end.
Proof.
  destruct k as [|k]; [reflexivity|].
  unfold py_sum. cbn [repeat fold_left].
  change (num_add (PyInt 0) (NpFloat 0%float)) with (NpFloat 0%float).
  induction k as [|k IH]; [reflexivity|].
  cbn [repeat fold_left].
  change (num_add (NpFloat 0%float) (NpFloat 0%float)) with (NpFloat 0%float).
  exact IH.
Qed.

Lemma map2_sub_self (y : vector) :
  forallb finite_value y = true ->
  map2 PrimFloat.sub y y = repeat 0%float (length y).
Proof.
  induction y as [|a y IH]; [reflexivity|].
  cbn [forallb map2 length repeat]. intros H.
  apply andb_true_iff in H. destruct H as [Ha Hy].
  rewrite (sub_self a Ha), (IH Hy). reflexivity.
Qed.

Lemma np_square_zeros k : np_square (repeat 0%float k) = repeat 0%float k.
Proof.
  induction k as [|k IH]; [reflexivity|].
  cbn [repeat]. unfold np_square in *. cbn [map]. rewrite IH. reflexivity.
Qed.

(** The residual sum of squares of a finite vector against itself. *)
Lemma ss_residuals_self (y : vector) :
  forallb finite_value y = true ->
  ss_residuals y y
  = Ok (match y with [] => PyInt 0 | _ :: _ => NpFloat 0%float end).
Proof.
  intros H. unfold ss_residuals, np_sub, broadcast.
  rewrite Nat.eqb_refl. cbn [bind].
  rewrite (map2_sub_self y H), np_square_zeros, py_sum_zeros.
  destruct y; reflexivity.
Qed.

(** ** Correlation of a vector with itself *)

Section SelfMetrics.

Variable np_mean : vector -> float.

Lemma pearson_value x y :
  (length x <= length y)%nat ->
  pearson np_mean x y
  = Ok (NpFloat
          (to_float (py_sum (map (pearson_term x y (np_mean x) (np_mean y))
                               (seq 0 (length x))))
           / (PrimFloat.sqrt (to_float (sum_sq_dev np_mean x))
              * PrimFloat.sqrt (to_float (sum_sq_dev np_mean y))))%float).
Proof.
  intros H. unfold pearson.
  rewrite (pearson_terms np_mean x y H). cbn [bind].
  rewrite num_truediv_np;
    [reflexivity | apply orb_true_r | apply py_sum_converts | reflexivity].
Qed.

Lemma pearson_terms_self y :
  map (pearson_term y y (np_mean y) (np_mean y)) (seq 0 (length y))
  = np_square (np_sub_scalar y (np_mean y)).
Proof.
  unfold np_square, np_sub_scalar. rewrite map_map.
  exact (map_at_index
           (fun a => ((a - np_mean y) * (a - np_mean y))%float) y).
Qed.

Lemma pearson_self_value y :
  pearson np_mean y y
  = Ok (NpFloat
          (sq_dev_sum np_mean y
           / (PrimFloat.sqrt (sq_dev_sum np_mean y)
              * PrimFloat.sqrt (sq_dev_sum np_mean y)))%float).
Proof.
  rewrite pearson_value by lia. rewrite pearson_terms_self.
  fold (sum_sq_dev np_mean y). rewrite sum_sq_dev_value. reflexivity.
Qed.

(** C6, as the code has it.  [S y] is the sum of the squared deviations of
    [y] from [np.mean(y)], added from left to right in binary64.  For every
    [y], [pearson(y, y)] is [S / (sqrt(S) * sqrt(S))]; that is exactly 1.0
    when [S] is finite, not zero, and [sqrt(S) * sqrt(S)] rounds back to [S],
    and it is a NaN when [S] is infinite.  On two vectors of one length of
    which one has [S] equal to zero, [pearson] raises nothing and returns an
    infinity or a NaN. *)
Theorem pearson_self_and_zero_variance :
  (forall y,
     pearson np_mean y y
     = Ok (NpFloat
             (sq_dev_sum np_mean y
              / (PrimFloat.sqrt (sq_dev_sum np_mean y)
                 * PrimFloat.sqrt (sq_dev_sum np_mean y)))%float))
  /\ (forall y,
        finite_value (sq_dev_sum np_mean y) = true ->
        (sq_dev_sum np_mean y =? 0)%float = false ->
        (PrimFloat.sqrt (sq_dev_sum np_mean y)
         * PrimFloat.sqrt (sq_dev_sum np_mean y))%float
        = sq_dev_sum np_mean y ->
        pearson np_mean y y = Ok (NpFloat 1%float))
  /\ (forall y,
        sq_dev_sum np_mean y = infinity ->
        pearson np_mean y y = Ok (NpFloat nan))
  /\ (forall x y,
        length x = length y ->
        exists r,
          pearson np_mean x y = Ok (NpFloat r)
          /\ ((sq_dev_sum np_mean x =? 0)%float = true
              \/ (sq_dev_sum np_mean y =? 0)%float = true ->
              finite_value r = false)).
Proof.
  split; [exact pearson_self_value|]. split; [|split].
  - intros y Hf Hz Hsq. rewrite pearson_self_value, Hsq.
    rewrite (div_self _ Hf Hz). reflexivity.
  - intros y Hinf. rewrite pearson_self_value, Hinf. reflexivity.
  - intros x y Hlen. rewrite pearson_value by lia.
    rewrite !sum_sq_dev_value.
    eexists. split; [reflexivity|].
    intros [Hz|Hz]; destruct (eqb_zero_inv _ Hz) as [s Hs];
      apply div_not_finite.
    + eapply mul_zero_l, sqrt_of_zero, Hs.
    + eapply mul_zero_r, sqrt_of_zero, Hs.
Qed.

(** C7, as the code has it, for a vector [y] of finite values:
    [ss_residuals(y, y) == 0.0]; [generalized_r2(y, y)] is exactly 1.0 when
    the computed total sum of squares is neither zero nor a NaN, is a NaN
    (nothing is raised) when it is zero and [y] is not empty, and raises
    [ZeroDivisionError] only for the empty vector. *)
Theorem self_residuals_and_r2 (y : vector) :
  forallb finite_value y = true ->
  (exists r, ss_residuals y y = Ok r /\ py_eq r (PyFloat 0%float) = true)
  /\ (y = [] -> generalized_r2 np_mean y y = Raise ZeroDivisionError)
  /\ (y <> [] ->
      ((to_float (sum_sq_dev np_mean y) =? 0)%float = false ->
       not_nan (to_float (sum_sq_dev np_mean y)) = true ->
       generalized_r2 np_mean y y = Ok (NpFloat 1%float))
      /\ ((to_float (sum_sq_dev np_mean y) =? 0)%float = true ->
          generalized_r2 np_mean y y = Ok (NpFloat nan))).
Proof.
  intros Hfin. split; [|split].
  - rewrite (ss_residuals_self y Hfin). eexists. split; [reflexivity|].
    destruct y; reflexivity.
  - intros ->. reflexivity.
  - intros Hne.
    assert (Hr2 : generalized_r2 np_mean y y
                  = Ok (NpFloat (1 - 0 / to_float (sum_sq_dev np_mean y))%float)).
    { unfold generalized_r2, np_sub, broadcast.
      rewrite Nat.eqb_refl. cbn [bind].
      rewrite (map2_sub_self y Hfin), np_square_zeros, py_sum_zeros.
      fold (sum_sq_dev np_mean y).
      assert (Hnp : exists t, sum_sq_dev np_mean y = NpFloat t).
      { eexists. unfold sum_sq_dev. apply py_sum_nonempty.
        unfold np_square, np_sub_scalar. destruct y; [congruence|discriminate]. }
      destruct Hnp as [t Ht]. rewrite Ht.
      destruct y; [congruence|]. reflexivity. }
    rewrite Hr2. split.
    + intros Hz Hn.
      destruct (zero_div 0%float _ false eq_refl Hz Hn) as [s Hs].
      rewrite (one_sub_zero _ _ Hs). reflexivity.
    + intros Hz. rewrite (zero_div_zero _ Hz). reflexivity.
Qed.

End SelfMetrics.

Lemma pearson_self_and_zero_variance_witness :
  pearson mean_seq [-1; 1; -1; 1]%float [-1; 1; -1; 1]%float
  = Ok (NpFloat 1%float)
  /\ pearson mean_seq [0x1.4e718d7d7625ap+664; -0x1.4e718d7d7625ap+664]%float
       [0x1.4e718d7d7625ap+664; -0x1.4e718d7d7625ap+664]%float
     = Ok (NpFloat nan)
  /\ exists r, pearson mean_seq [1; 1]%float [3; 5]%float = Ok (NpFloat r)
               /\ finite_value r = false.
Proof.
  pose proof (pearson_self_and_zero_variance mean_seq)
    as (_ & Hone & Hnan & Hzero).
  split; [|split].
  - apply Hone; vm_compute; reflexivity.
  - apply Hnan. vm_compute. reflexivity.
  - destruct (Hzero [1; 1]%float [3; 5]%float eq_refl) as (r & Hr & Hf).
    exists r. split; [exact Hr | apply Hf; left; vm_compute; reflexivity].
Defined.

(** C6 fails as stated: the entries of [[0, 2]] differ, and its correlation
    with itself is 0.9999999999999998. *)
Lemma pearson_self_not_exactly_one :
  pearson mean_seq [0; 2]%float [0; 2]%float
  = Ok (NpFloat 0x1.ffffffffffffep-1%float)
  /\ py_eq (NpFloat 0x1.ffffffffffffep-1%float) (PyFloat 1%float) = false.
Proof. split; vm_compute; reflexivity. Qed.

Lemma self_residuals_and_r2_witness :
  generalized_r2 mean_seq [1; 2; 4]%float [1; 2; 4]%float = Ok (NpFloat 1%float)
  /\ generalized_r2 mean_seq [1; 1]%float [1; 1]%float = Ok (NpFloat nan).
Proof.
  split.
  - exact (proj1 (proj2 (proj2 (self_residuals_and_r2 mean_seq
                                  [1; 2; 4]%float eq_refl))
                   ltac:(discriminate)) eq_refl eq_refl).
  - exact (proj2 (proj2 (proj2 (self_residuals_and_r2 mean_seq
                                  [1; 1]%float eq_refl))
                   ltac:(discriminate)) eq_refl).
Defined.

(** C7 fails as stated: the observations [[0.1, 0.1, 0.1]] are constant, yet
    [generalized_r2] divides by a nonzero total and returns 1.0; on the
    constant [[1, 1]] it returns a NaN and raises nothing; and
    [ss_residuals] of a vector that holds an infinity is a NaN. *)
Lemma constant_observations_do_not_raise :
  generalized_r2 mean_seq
    [0x1.999999999999ap-4; 0x1.999999999999ap-4; 0x1.999999999999ap-4]%float
    [0x1.999999999999ap-4; 0x1.999999999999ap-4; 0x1.999999999999ap-4]%float
  = Ok (NpFloat 1%float)
  /\ generalized_r2 mean_seq [1; 1]%float [1; 1]%float = Ok (NpFloat nan)
  /\ ss_residuals [infinity] [infinity] = Ok (NpFloat nan).
Proof. repeat split; vm_compute; reflexivity. Qed.

(** ** Model comparison *)

Lemma map2_length op (a : vector) : forall b,
  length b = length a -> length (map2 op a b) = length a.
Proof.
  induction a as [|x a IH]; intros [|y b] H; try discriminate; [reflexivity|].
  cbn [map2 length]. rewrite IH; [reflexivity | simpl in H; lia].
Qed.

(** The residual sum of squares of a fitted model is a NumPy scalar. *)
Lemma ss_residuals_fitted (m : model) :
  fitted m = true ->
  ss_residuals (phenotypes m) (predict m tt) = Ok (NpFloat (rss m)).
Proof.
  unfold fitted. intros H. apply andb_true_iff in H. destruct H as [Hne Hlen].
  apply Nat.eqb_eq in Hlen. apply negb_true_iff, Nat.eqb_neq in Hne.
  unfold ss_residuals, np_sub, broadcast.
  rewrite <- Hlen, Nat.eqb_refl. cbn [bind]. unfold rss. f_equal.
  apply py_sum_nonempty. intros E.
  apply (f_equal (@length float)) in E.
  unfold np_square in E. rewrite length_map, map2_length in E by assumption.
  simpl in E. lia.
Qed.

Lemma ss_residuals_outcome (a b : vector) :
  (exists r, ss_residuals a b = Ok r) \/ ss_residuals a b = Raise ValueError.
Proof.
  unfold ss_residuals, np_sub, broadcast.
  destruct (length a =? length b)%nat; [left; eexists; reflexivity|].
  destruct a as [|x [|x' a]], b as [|y [|y' b]];
    try (left; eexists; reflexivity); right; reflexivity.
Qed.

Lemma num_truediv_outcome (a b : num) :
  (exists r, num_truediv a b = Ok r)
  \/ num_truediv a b = Raise ZeroDivisionError
  \/ num_truediv a b = Raise OverflowError.
Proof.
  unfold num_truediv.
  destruct a as [x|x|x], b as [y|y|y]; cbn [num_to_float is_np orb bind];
    try (left; eexists; reflexivity).
  - destruct (y =? 0); [right; left; reflexivity|].
    destruct (int_truediv x y);
      try (left; eexists; reflexivity); right; right; reflexivity.
  - destruct (float_overflows x); cbn [bind];
      [right; right; reflexivity|].
    destruct (y =? 0)%float;
      [right; left; reflexivity | left; eexists; reflexivity].
  - destruct (float_overflows x); cbn [bind];
      [right; right; reflexivity | left; eexists; reflexivity].
  - destruct (float_overflows y); cbn [bind];
      [right; right; reflexivity|].
    destruct (float_of_Z y =? 0)%float;
      [right; left; reflexivity | left; eexists; reflexivity].
  - destruct (y =? 0)%float;
      [right; left; reflexivity | left; eexists; reflexivity].
  - destruct (float_overflows y); cbn [bind];
      [right; right; reflexivity | left; eexists; reflexivity].
Qed.

Lemma py_float_outcome (a : num) :
  (exists r, py_float a = Ok r) \/ py_float a = Raise OverflowError.
Proof.
  unfold py_float.
  destruct a as [x|x|x]; cbn [num_to_float bind];
    try (left; eexists; reflexivity).
  destruct (float_overflows x); cbn [bind];
    [right; reflexivity | left; eexists; reflexivity].
Qed.

(** A NumPy scalar divided by an [int] that converts. *)
Lemma np_truediv_int x z :
  float_overflows z = false ->
  num_truediv (NpFloat x) (PyInt z) = Ok (NpFloat (x / float_of_Z z)%float).
Proof.
  intros H. unfold num_truediv. cbn [num_to_float]. rewrite H. reflexivity.
Qed.

Section FTest.

Variable f_cdf : float -> Z -> Z -> float.

Lemma F_test_not_nested m1 m2 :
  n_params m1 >= n_params m2 ->
  F_test f_cdf m1 m2 = ([], Raise nesting_error).
Proof.
  intros H. unfold F_test, n_params in *.
  destruct (Z.geb_spec (len (Interactions_values m1))
              (len (Interactions_values m2))) as [_|Hlt]; [reflexivity | lia].
Qed.

(** Past the check, whatever [F_test] raises is not the nesting error. *)
Lemma F_test_nested_outcome m1 m2 :
  n_params m1 < n_params m2 ->
  outcome (F_test f_cdf m1 m2) <> Raise nesting_error.
Proof.
  intros H. unfold F_test, n_params in *.
  destruct (Z.geb_spec (len (Interactions_values m1))
              (len (Interactions_values m2))) as [Hge|_]; [lia|].
  unfold do_predict, do_ss_residuals, do_f_cdf, lift, outcome.
  cbn [tbind].
  destruct (ss_residuals_outcome (phenotypes m1) (predict m1 tt))
    as [[sse1 ->] | ->]; [|discriminate].
  cbn [tbind].
  destruct (ss_residuals_outcome (phenotypes m2) (predict m2 tt))
    as [[sse2 ->] | ->]; [|discriminate].
  cbn [tbind].
  destruct (num_truediv_outcome (num_sub sse1 sse2)
              (PyInt (len (Interactions_values m2)
                      - len (Interactions_values m1))))
    as [[a ->] | [-> | ->]]; [|discriminate|discriminate].
  cbn [tbind].
  destruct (num_truediv_outcome sse2
              (PyInt (len (phenotypes m1)
                      - len (Interactions_values m2) - 1)))
    as [[b ->] | [-> | ->]]; [|discriminate|discriminate].
  cbn [tbind].
  destruct (num_truediv_outcome a b) as [[F ->] | [-> | ->]]; discriminate.
Qed.

(** The degrees of freedom of [F_test] are differences of sizes. *)
Lemma degrees_of_freedom_convert m1 m2 :
  float_overflows (n_params m2 - n_params m1) = false
  /\ float_overflows (len (phenotypes m1) - n_params m2 - 1) = false.
Proof.
  unfold n_params.
  pose proof (len_bounds (Interactions_values m1)).
  pose proof (len_bounds (Interactions_values m2)).
  pose proof (len_bounds (phenotypes m1)).
  split.
  - rewrite <- (Z.sub_0_r (_ - _)). apply size_difference_converts; lia.
  - apply size_difference_converts; lia.
Qed.

Lemma F_test_fitted m1 m2 :
  fitted m1 = true -> fitted m2 = true ->
  n_params m1 < n_params m2 ->
  let df1 := n_params m2 - n_params m1 in
  let df2 := len (phenotypes m1) - n_params m2 - 1 in
  let F := ((rss m1 - rss m2) / float_of_Z df1
            / (rss m2 / float_of_Z df2))%float in
  outcome (F_test f_cdf m1 m2)
  = Ok (NpFloat F, NpFloat (1 - f_cdf F df1 df2)%float).
Proof.
  intros H1 H2 Hlt. unfold F_test, n_params in *.
  destruct (Z.geb_spec (len (Interactions_values m1))
              (len (Interactions_values m2))) as [Hge|_]; [lia|].
  unfold do_predict, do_ss_residuals, do_f_cdf, lift, outcome.
  cbn [tbind].
  rewrite (ss_residuals_fitted m1 H1). cbn [tbind].
  rewrite (ss_residuals_fitted m2 H2). cbn [tbind].
  destruct (degrees_of_freedom_convert m1 m2) as [Hdf1 Hdf2].
  unfold n_params in Hdf1, Hdf2.
  change (num_sub (NpFloat (rss m1)) (NpFloat (rss m2)))
    with (NpFloat (rss m1 - rss m2)%float).
  rewrite (np_truediv_int _ _ Hdf1). cbn [tbind].
  rewrite (np_truediv_int _ _ Hdf2). cbn [tbind].
  reflexivity.
Qed.

(** C1, as the code has it: for two fitted models (at least one observation
    each, a prediction for each observation) of which the first has strictly
    fewer parameters, [F_test] returns [(F, p_value)] with the degrees of
    freedom, the residual sums of squares, the F statistic and the right
    tail [1 - f.cdf(F, df1, df2)] of the claim. *)
Theorem F_test_returns_statistic (m1 m2 : model) :
  fitted m1 = true -> fitted m2 = true ->
  n_params m1 < n_params m2 ->
  exists sse1 sse2,
    ss_residuals (phenotypes m1) (predict m1 tt) = Ok (NpFloat sse1)
    /\ ss_residuals (phenotypes m2) (predict m2 tt) = Ok (NpFloat sse2)
    /\ let df1 := n_params m2 - n_params m1 in
       let df2 := len (phenotypes m1) - n_params m2 - 1 in
       let F := ((sse1 - sse2) / float_of_Z df1
                 / (sse2 / float_of_Z df2))%float in
       outcome (F_test f_cdf m1 m2)
       = Ok (NpFloat F, NpFloat (1 - f_cdf F df1 df2)%float).
Proof.
  intros H1 H2 Hlt. exists (rss m1), (rss m2).
  split; [apply ss_residuals_fitted, H1|].
  split; [apply ss_residuals_fitted, H2|].
  apply F_test_fitted; assumption.
Qed.

(** C2, as the code has it: [F_test] raises its nesting error exactly when
    the first model has at least as many parameters as the second, and then
    before any call to [predict], [ss_residuals] or [f.cdf]; on fitted
    models it raises nothing else. *)
Theorem F_test_nesting_check (m1 m2 : model) :
  (outcome (F_test f_cdf m1 m2) = Raise nesting_error
   <-> n_params m1 >= n_params m2)
  /\ (n_params m1 >= n_params m2 -> trace_of (F_test f_cdf m1 m2) = [])
  /\ (fitted m1 = true -> fitted m2 = true ->
      (raises (outcome (F_test f_cdf m1 m2))
       <-> n_params m1 >= n_params m2)).
Proof.
  split; [|split].
  - split.
    + intros H. destruct (Z_lt_ge_dec (n_params m1) (n_params m2)) as [Hlt|Hge];
        [|exact Hge].
      exfalso. exact (F_test_nested_outcome m1 m2 Hlt H).
    + intros H. rewrite (F_test_not_nested m1 m2 H). reflexivity.
  - intros H. rewrite (F_test_not_nested m1 m2 H). reflexivity.
  - intros H1 H2. split.
    + intros [e He].
      destruct (Z_lt_ge_dec (n_params m1) (n_params m2)) as [Hlt|Hge];
        [|exact Hge].
      pose proof (F_test_fitted m1 m2 H1 H2 Hlt) as Hok. cbv zeta in Hok.
      rewrite Hok in He. discriminate.
    + intros H. exists nesting_error.
      rewrite (F_test_not_nested m1 m2 H). reflexivity.
Qed.

End FTest.

Lemma F_test_returns_statistic_witness :
  outcome (F_test unit_cdf small_model large_model)
  = Ok (NpFloat 1%float, NpFloat 0%float).
Proof.
  destruct (F_test_returns_statistic unit_cdf small_model large_model
              eq_refl eq_refl eq_refl) as (sse1 & sse2 & E1 & E2 & HF).
  vm_compute in E1, E2.
  injection E1 as <-. injection E2 as <-. exact HF.
Defined.

(** C1 fails as stated: two models without observations, the first with fewer
    parameters; [F_test] raises [ZeroDivisionError]. *)
Lemma F_test_unobserved_raises :
  n_params small_model_unobserved < n_params large_model_unobserved
  /\ F_test unit_cdf small_model_unobserved large_model_unobserved
     = ([call_predict small_model_unobserved; call_ss_residuals [] [];
         call_predict large_model_unobserved; call_ss_residuals [] []],
        Raise ZeroDivisionError).
Proof. split; [reflexivity | vm_compute; reflexivity]. Qed.

Lemma F_test_nesting_check_witness :
  raises (outcome (F_test unit_cdf large_model small_model))
  /\ trace_of (F_test unit_cdf large_model small_model) = [].
Proof.
  pose proof (F_test_nesting_check unit_cdf large_model small_model)
    as (_ & Htrace & Hraises).
  split.
  - apply (Hraises eq_refl eq_refl). vm_compute. discriminate.
  - apply Htrace. vm_compute. discriminate.
Defined.

(** C2 fails as stated: the first model has fewer parameters and [F_test]
    raises all the same. *)
Lemma F_test_raises_though_nested :
  ~ (raises (outcome (F_test unit_cdf small_model_unobserved
                        large_model_unobserved))
     <-> n_params small_model_unobserved >= n_params large_model_unobserved).
Proof.
  intros [H _].
  assert (Hr : raises (outcome (F_test unit_cdf small_model_unobserved
                                  large_model_unobserved))).
  { exists ZeroDivisionError. vm_compute. reflexivity. }
  apply H in Hr. vm_compute in Hr. apply Hr. reflexivity.
Qed.

Section Likelihood.

Variable np_log : float -> float.
Variable np_exp : float -> float.
Variable np_power : float -> float -> float.

Lemma likelihood_line_s1 m ssr sigma :
  likelihood_line np_exp np_power "s1" m ssr sigma = Raise (NameError "s1").
Proof. reflexivity. Qed.

Lemma np_truediv_overflow x z :
  float_overflows z = true ->
  num_truediv (NpFloat x) (PyInt z) = Raise OverflowError.
Proof.
  intros H. unfold num_truediv. cbn [num_to_float]. rewrite H. reflexivity.
Qed.

Lemma log_likelihood_ratio_fitted m1 m2 :
  fitted m1 = true -> fitted m2 = true ->
  log_likelihood_ratio np_exp np_power m1 m2
  = ([call_predict m1;
      call_ss_residuals (phenotypes m1) (predict m1 tt);
      call_predict m2;
      call_ss_residuals (phenotypes m2) (predict m2 tt)],
     Raise (if float_overflows (n m1) || float_overflows (n m2)
            then OverflowError else NameError "s1")).
Proof.
  intros H1 H2. unfold log_likelihood_ratio, do_predict, do_ss_residuals, lift.
  cbn [tbind].
  rewrite (ss_residuals_fitted m1 H1). cbn [tbind].
  rewrite (ss_residuals_fitted m2 H2). cbn [tbind].
  destruct (float_overflows (n m1)) eqn:Hn1; cbn [orb].
  { rewrite (np_truediv_overflow _ _ Hn1). reflexivity. }
  rewrite (np_truediv_int _ _ Hn1). cbn [tbind py_float num_to_float bind].
  destruct (float_overflows (n m2)) eqn:Hn2.
  { rewrite (np_truediv_overflow _ _ Hn2). reflexivity. }
  rewrite (np_truediv_int _ _ Hn2). reflexivity.
Qed.

Lemma log_likelihood_ratio_never_returns m1 m2 r :
  outcome (log_likelihood_ratio np_exp np_power m1 m2) <> Ok r.
Proof.
  unfold log_likelihood_ratio, do_predict, do_ss_residuals, lift, outcome.
  cbn [tbind].
  destruct (ss_residuals_outcome (phenotypes m1) (predict m1 tt))
    as [[ssr1 ->] | ->]; [|discriminate].
  cbn [tbind].
  destruct (ss_residuals_outcome (phenotypes m2) (predict m2 tt))
    as [[ssr2 ->] | ->]; [|discriminate].
  cbn [tbind].
  destruct (num_truediv_outcome ssr1 (PyInt (n m1)))
    as [[q1 ->] | [-> | ->]]; [|discriminate|discriminate].
  cbn [tbind].
  destruct (py_float_outcome q1) as [[sigma1 ->] | ->]; [|discriminate].
  cbn [tbind].
  destruct (num_truediv_outcome ssr2 (PyInt (n m2)))
    as [[q2 ->] | [-> | ->]]; [|discriminate|discriminate].
  cbn [tbind].
  destruct (py_float_outcome q2) as [[sigma2 ->] | ->]; [|discriminate].
  cbn [tbind]. rewrite likelihood_line_s1. discriminate.
Qed.

(** C8, as the code has it: [log_likelihood] raises [NameError] on [ssr]
    for every model; [log_likelihood_ratio] returns for no pair of models,
    and on fitted models it calls [predict] and [ss_residuals] for both and
    then raises: [NameError] on [s1] when the [n] of both models converts to
    a float, [OverflowError] at [ssr / model.n] when one of them is an [int]
    beyond the float range. *)
Theorem likelihoods_raise_name_error (m m1 m2 : model) :
  log_likelihood np_log m = Raise (NameError "ssr")
  /\ (forall r, outcome (log_likelihood_ratio np_exp np_power m1 m2) <> Ok r)
  /\ (fitted m1 = true -> fitted m2 = true ->
      log_likelihood_ratio np_exp np_power m1 m2
      = ([call_predict m1;
          call_ss_residuals (phenotypes m1) (predict m1 tt);
          call_predict m2;
          call_ss_residuals (phenotypes m2) (predict m2 tt)],
         Raise (if float_overflows (n m1) || float_overflows (n m2)
                then OverflowError else NameError "s1"))).
Proof.
  split; [reflexivity|]. split.
  - intros r. apply log_likelihood_ratio_never_returns.
  - apply log_likelihood_ratio_fitted.
Qed.

End Likelihood.

Lemma likelihoods_raise_name_error_witness :
  outcome (log_likelihood_ratio unit_fn unit_fn2 large_model small_model)
  = Raise (NameError "s1").
Proof.
  exact (f_equal snd
           (proj2 (proj2 (likelihoods_raise_name_error unit_fn unit_fn unit_fn2
                            small_model large_model small_model))
              eq_refl eq_refl)).
Defined.

(** C8 fails as stated: on two models without observations (and [n = 0])
    [log_likelihood_ratio] raises [ZeroDivisionError], not a [NameError]. *)
Lemma log_likelihood_ratio_unobserved :
  outcome (log_likelihood_ratio unit_fn unit_fn2 small_model_unobserved
             large_model_unobserved)
  = Raise ZeroDivisionError.
Proof. vm_compute. reflexivity. Qed.

(** C9: [log_likelihood_ratio] returns no ratio; on the two fitted models it
    stops at the name [s1]. *)
Theorem log_likelihood_ratio_returns_no_ratio :
  log_likelihood_ratio unit_fn unit_fn2 small_model large_model
  = ([call_predict small_model;
      call_ss_residuals [1; 2; 4; 3]%float [2; 2; 3; 3]%float;
      call_predict large_model;
      call_ss_residuals [1; 2; 4; 3]%float [1; 2; 3; 3]%float],
     Raise (NameError "s1")).
Proof. vm_compute. reflexivity. Qed.

(** ** Further properties of the module *)

(** [AIC] calls [log_likelihood] and raises its [NameError], for every
    model. *)
Theorem AIC_never_returns (np_log : float -> float) (m : model) :
  AIC np_log m = Raise (NameError "ssr").
Proof.
  unfold AIC.
  assert (H : log_likelihood np_log m = Raise (NameError "ssr"))
    by reflexivity.
  rewrite H. reflexivity.
Qed.

(** A mismatch between [y_obs] and [y_pred] or [upper_ci] raises the size
    error in both rate functions. *)
Theorem size_error_on_checked_mismatch
    (y_obs y_pred upper_ci lower_ci : vector) (sigmas : num) :
  length y_pred <> length y_obs \/ length upper_ci <> length y_obs ->
  false_positive_rate y_obs y_pred upper_ci lower_ci sigmas = Raise size_error
  /\ false_negative_rate y_obs y_pred upper_ci lower_ci sigmas
     = Raise size_error.
Proof. apply checked_lengths_raise. Qed.

Lemma size_error_on_checked_mismatch_witness :
  false_positive_rate [0; 1; 2; 3; 4]%float [0; 1; 2; 3]%float
    [1; 1; 1; 1; 1]%float [1; 1; 1; 1; 1]%float (PyInt 2)
  = Raise size_error.
Proof.
  apply (size_error_on_checked_mismatch
           [0; 1; 2; 3; 4]%float [0; 1; 2; 3]%float
           [1; 1; 1; 1; 1]%float [1; 1; 1; 1; 1]%float (PyInt 2)).
  left. simpl. discriminate.
Defined.

(** The example of the specification: on observations [[1, 2, 3, 4]]
    predicted exactly, [chi_squared] is 0.0 and [explained_variance] is 1.0. *)
Theorem exact_prediction_example :
  chi_squared [1; 2; 3; 4]%float [1; 2; 3; 4]%float = Ok (NpFloat 0%float)
  /\ explained_variance mean_seq [1; 2; 3; 4]%float [1; 2; 3; 4]%float
     = Ok (NpFloat 1%float).
Proof. split; vm_compute; reflexivity. Qed.

(** ** Signs *)

Lemma binary_round_aux_not_negative m e l :
  sf_not_negative (binary_round_aux prec emax false m e l).
Proof.
  unfold binary_round_aux.
  destruct (shr_fexp prec emax m e l) as [mrs1 e1].
  destruct (shr_fexp prec emax _ e1 loc_Exact) as [mrs2 e2].
  destruct (shr_m mrs2); [exact I | | exact I].
  destruct (e2 <=? emax - prec); reflexivity.
Qed.

Lemma binary_round_not_negative m e :
  sf_not_negative (binary_round prec emax false m e).
Proof.
  unfold binary_round.
  destruct (shl_align m e _) as [mz ez].
  apply binary_round_aux_not_negative.
Qed.

(** A square is not below zero. *)
Lemma square_not_negative x : sf_not_negative (Prim2SF (x * x)%float).
Proof.
  rewrite mul_spec. destruct (Prim2SF x) as [s | s | | s m e]; cbn.
  - exact I.
  - destruct s; reflexivity.
  - exact I.
  - rewrite xorb_nilpotent. apply binary_round_aux_not_negative.
Qed.

(** The sum of two numbers that are not below zero is not below zero. *)
Lemma add_not_negative x y :
  sf_not_negative (Prim2SF x) -> sf_not_negative (Prim2SF y) ->
  sf_not_negative (Prim2SF (x + y)%float).
Proof.
  rewrite add_spec.
  destruct (Prim2SF x) as [sx | sx | | sx mx ex],
           (Prim2SF y) as [sy | sy | | sy my ey]; cbn;
    intros Hx Hy; subst; try exact I; try reflexivity.
  - destruct sx, sy; exact I.
  - unfold SF64add, SFadd. cbn [cond_Zopp].
    unfold binary_normalize.
    match goal with
    | |- context [Z.pos ?a + Z.pos ?b] =>
        change (Z.pos a + Z.pos b) with (Z.pos (a + b))
    end.
    apply binary_round_not_negative.
Qed.

Lemma not_negative_ltb x :
  sf_not_negative (Prim2SF x) -> (x <? 0)%float = false.
Proof.
  rewrite FloatAxioms.ltb_spec. change (Prim2SF 0) with (S754_zero false).
  destruct (Prim2SF x) as [s | s | | s m e]; cbn; intros H; subst; reflexivity.
Qed.

(** ** Sums of squares *)

Lemma fold_add_not_negative (v : vector) : forall acc,
  sf_not_negative (Prim2SF acc) ->
  (forall x, In x v -> sf_not_negative (Prim2SF x)) ->
  sf_not_negative (Prim2SF (fold_left PrimFloat.add v acc)).
Proof.
  induction v as [|x v IH]; intros acc Ha Hv; [exact Ha|].
  cbn [fold_left]. apply IH.
  - apply add_not_negative; [exact Ha | apply Hv; left; reflexivity].
  - intros y Hy. apply Hv. right. exact Hy.
Qed.

(** The builtin sum of the squares of an array is never below zero. *)
Lemma sum_of_squares_not_negative v :
  (to_float (py_sum (np_square v)) <? 0)%float = false.
Proof.
  apply not_negative_ltb. rewrite to_float_py_sum.
  apply fold_add_not_negative; [exact I|].
  intros x Hx. unfold np_square in Hx. apply in_map_iff in Hx.
  destruct Hx as (y & <- & _). apply square_not_negative.
Qed.

Lemma broadcast_outcome op a b :
  broadcast op a b
  = if broadcastable a b
    then Ok (if (length a =? length b)%nat then map2 op a b
             else if (length b =? 1)%nat
                  then map (fun x => op x (hd 0%float b)) a
                  else map (op (hd 0%float a)) b)
    else Raise ValueError.
Proof.
  unfold broadcast, broadcastable.
  destruct (length a =? length b)%nat eqn:E; [reflexivity|].
  destruct a as [|x [|x' a]], b as [|y [|y' b]]; try reflexivity;
    cbn in E; discriminate.
Qed.

(** [ss_residuals] raises, and then [ValueError], exactly on two arrays that
    cannot be broadcast; what it returns is never below zero. *)
Theorem ss_residuals_outcome_and_sign (y_obs y_pred : vector) :
  (broadcastable y_obs y_pred = false ->
   ss_residuals y_obs y_pred = Raise ValueError)
  /\ (broadcastable y_obs y_pred = true ->
      exists r, ss_residuals y_obs y_pred = Ok r
                /\ (to_float r <? 0)%float = false).
Proof.
  unfold ss_residuals, np_sub. rewrite broadcast_outcome.
  split; intros H; rewrite H; [reflexivity|].
  cbn [bind]. eexists. split; [reflexivity|].
  apply sum_of_squares_not_negative.
Qed.

Lemma ss_residuals_outcome_and_sign_witness :
  ss_residuals [1; 2; 3]%float [1; 2]%float = Raise ValueError
  /\ exists r, ss_residuals [1; 2; 3]%float [2]%float = Ok r
               /\ (to_float r <? 0)%float = false.
Proof.
  split.
  - apply (ss_residuals_outcome_and_sign [1; 2; 3]%float [1; 2]%float).
    reflexivity.
  - apply (ss_residuals_outcome_and_sign [1; 2; 3]%float [2]%float).
    reflexivity.
Defined.

(** ** [chi_squared] *)

(** A sum with an infinity or a NaN among its terms is an infinity or a NaN. *)
Lemma add_not_finite x y :
  finite_value x = false \/ finite_value y = false ->
  finite_value (x + y)%float = false.
Proof.
  unfold finite_value. rewrite add_spec.
  destruct (Prim2SF x) as [sx | sx | | sx mx ex],
           (Prim2SF y) as [sy | sy | | sy my ey];
    intros [H|H]; try discriminate; try reflexivity;
    cbn; try (destruct sx, sy; reflexivity).
Qed.

Lemma fold_add_not_finite (v : vector) : forall acc,
  finite_value acc = false \/ (exists x, In x v /\ finite_value x = false) ->
  finite_value (fold_left PrimFloat.add v acc) = false.
Proof.
  induction v as [|x v IH]; intros acc H; cbn [fold_left].
  - destruct H as [H | (y & [] & _)]. exact H.
  - apply IH. destruct H as [H | (y & [<- | Hy] & Hf)].
    + left. apply add_not_finite. left. exact H.
    + left. apply add_not_finite. right. exact Hf.
    + right. exists y. split; assumption.
Qed.

Lemma map2_div_by_zero (c : vector) : forall b,
  length c = length b -> existsb equals_zero b = true ->
  exists q, In q (map2 PrimFloat.div c b) /\ finite_value q = false.
Proof.
  induction c as [|x c IH]; intros [|y b] Hlen Hz; try discriminate.
  cbn [existsb] in Hz. cbn [map2].
  destruct (equals_zero y) eqn:Ey.
  - exists (x / y)%float. split; [left; reflexivity|].
    apply div_not_finite. unfold equals_zero in Ey.
    destruct (eqb_zero_inv y Ey) as [s ->]. exact I.
  - destruct (IH b) as (q & Hin & Hq); [simpl in Hlen; lia | exact Hz |].
    exists q. split; [right; exact Hin | exact Hq].
Qed.

(** On two arrays of one length with a prediction equal to zero,
    [chi_squared] raises nothing: it returns an infinity or a NaN. *)
Theorem chi_squared_zero_prediction (y_obs y_pred : vector) :
  length y_obs = length y_pred ->
  existsb equals_zero y_pred = true ->
  exists r, chi_squared y_obs y_pred = Ok r
            /\ finite_value (to_float r) = false.
Proof.
  intros Hlen Hz. unfold chi_squared, np_sub, np_div, broadcast.
  rewrite Hlen, Nat.eqb_refl. cbn [bind].
  assert (Hl : length (np_square (map2 PrimFloat.sub y_obs y_pred))
               = length y_pred).
  { unfold np_square. rewrite length_map, map2_length; congruence. }
  rewrite Hl, Nat.eqb_refl. cbn [bind].
  eexists. split; [reflexivity|].
  rewrite to_float_py_sum. apply fold_add_not_finite. right.
  apply map2_div_by_zero; assumption.
Qed.

Lemma chi_squared_zero_prediction_witness :
  exists r, chi_squared [1; 2]%float [1; 0]%float = Ok r
            /\ finite_value (to_float r) = false.
Proof.
  apply (chi_squared_zero_prediction [1; 2]%float [1; 0]%float);
    reflexivity.
Defined.

Lemma finite_not_nan x : finite_value x = true -> not_nan x = true.
Proof.
  unfold finite_value, not_nan. destruct (Prim2SF x); congruence.
Qed.

Lemma map2_zero_div k : forall y,
  length y = k ->
  forallb finite_value y = true -> existsb equals_zero y = false ->
  forall q, In q (map2 PrimFloat.div (repeat 0%float k) y) ->
            exists s, Prim2SF q = S754_zero s.
Proof.
  induction k as [|k IH]; intros [|a y] Hlen Hf Hz q Hq; try discriminate;
    cbn [repeat map2] in Hq; [contradiction|].
  cbn [forallb existsb] in Hf, Hz.
  apply andb_true_iff in Hf. destruct Hf as [Hfa Hfy].
  apply orb_false_iff in Hz. destruct Hz as [Hza Hzy].
  destruct Hq as [<- | Hq].
  - apply (zero_div 0%float a false eq_refl Hza (finite_not_nan a Hfa)).
  - apply (IH y); try assumption. simpl in Hlen. lia.
Qed.

Lemma fold_add_zeros (v : vector) :
  (forall x, In x v -> exists s, Prim2SF x = S754_zero s) ->
  fold_left PrimFloat.add v 0%float = 0%float.
Proof.
  induction v as [|x v IH]; intros H; [reflexivity|].
  cbn [fold_left].
  destruct (H x (or_introl eq_refl)) as [s Hs].
  assert (E : (0 + x)%float = 0%float).
  { apply Prim2SF_inj. rewrite add_spec, Hs. destruct s; reflexivity. }
  rewrite E. apply IH. intros y Hy. apply H. right. exact Hy.
Qed.

Lemma py_eq_zero r :
  to_float r = 0%float -> py_eq r (PyFloat 0%float) = true.
Proof.
  intros H. destruct r; cbn [py_eq to_float] in *; rewrite H; reflexivity.
Qed.

(** [chi_squared(y, y) == 0.0] for every [y] of finite values none of which
    is zero. *)
Theorem chi_squared_self (y : vector) :
  forallb finite_value y = true ->
  existsb equals_zero y = false ->
  exists r, chi_squared y y = Ok r /\ py_eq r (PyFloat 0%float) = true.
Proof.
  intros Hf Hz. unfold chi_squared, np_sub, np_div, broadcast.
  rewrite Nat.eqb_refl. cbn [bind].
  rewrite (map2_sub_self y Hf), np_square_zeros, repeat_length, Nat.eqb_refl.
  cbn [bind]. eexists. split; [reflexivity|].
  apply py_eq_zero. rewrite to_float_py_sum.
  apply fold_add_zeros. apply (map2_zero_div (length y) y eq_refl Hf Hz).
Qed.

Lemma chi_squared_self_witness :
  exists r, chi_squared [1; -2; 3]%float [1; -2; 3]%float = Ok r
            /\ py_eq r (PyFloat 0%float) = true.
Proof.
  apply (chi_squared_self [1; -2; 3]%float); reflexivity.
Defined.

(** ** Errors of the fit metrics *)

Lemma getitem_beyond v i :
  (length v <= i)%nat -> getitem v i = Raise IndexError.
Proof.
  intros H. unfold getitem. apply nth_error_None in H. rewrite H. reflexivity.
Qed.

Lemma for_each_app {S : Type} (body : S -> nat -> result S) l1 : forall l2 st,
  for_each body (l1 ++ l2) st
  = (st' <- for_each body l1 st ;; for_each body l2 st').
Proof.
  induction l1 as [|i l1 IH]; intros l2 st; [reflexivity|].
  cbn [app for_each]. destruct (body st i); cbn [bind]; [apply IH | reflexivity].
Qed.

Lemma pearson_loop_tail x y xbar ybar tail m : forall k done todo,
  length done = k -> length todo = m ->
  (k + m <= length x)%nat -> (k + m <= length y)%nat ->
  for_each (pearson_body x y xbar ybar) (seq k m) (done ++ todo ++ tail)
  = Ok (done ++ map (pearson_term x y xbar ybar) (seq k m) ++ tail).
Proof.
  induction m as [|m IH]; intros k done todo Hd Ht Hx Hy.
  - destruct todo; [reflexivity | discriminate].
  - destruct todo as [|z todo]; [discriminate|].
    cbn [seq for_each map app]. unfold pearson_body at 1.
    rewrite (getitem_at x k), (getitem_at y k) by lia. cbn [bind].
    rewrite <- Hd at 1. rewrite setitem_app. cbn [bind].
    change (done ++ ?a :: ?l) with (done ++ [a] ++ l).
    rewrite (app_assoc done), (IH (S k) (done ++ [_]) todo).
    + rewrite <- app_assoc. reflexivity.
    + rewrite length_app. simpl. lia.
    + simpl in Ht. lia.
    + lia.
    + lia.
Qed.

Section MetricErrors.

Variable np_mean : vector -> float.

Lemma pearson_short_prediction x y :
  (length y < length x)%nat -> pearson np_mean x y = Raise IndexError.
Proof.
  intros H. unfold pearson, for_range, np_zeros.
  replace (length x) with (length y + S (length x - length y - 1))%nat by lia.
  rewrite seq_app, repeat_app, for_each_app.
  pose proof (pearson_loop_tail x y (np_mean x) (np_mean y)
                (repeat 0%float (S (length x - length y - 1)))
                (length y) 0%nat [] (repeat 0%float (length y))
                eq_refl (repeat_length _ _) ltac:(lia) ltac:(lia)) as HL.
  cbn [app] in HL. rewrite HL.
  cbn [bind seq for_each Nat.add]. unfold pearson_body at 1.
  rewrite (getitem_at x (length y)) by lia. cbn [bind].
  rewrite (getitem_beyond y (length y)) by lia. reflexivity.
Qed.

(** [pearson] raises exactly when [y_pred] is shorter than [y_obs], and then
    [IndexError]; a longer [y_pred] is accepted, and no input makes the
    division raise. *)
Theorem pearson_raises_on_short_prediction (y_obs y_pred : vector) :
  ((length y_pred < length y_obs)%nat ->
   pearson np_mean y_obs y_pred = Raise IndexError)
  /\ ((length y_obs <= length y_pred)%nat ->
      exists r, pearson np_mean y_obs y_pred = Ok (NpFloat r)).
Proof.
  split.
  - apply pearson_short_prediction.
  - intros H. rewrite (pearson_value np_mean y_obs y_pred H).
    eexists. reflexivity.
Qed.

Lemma sum_sq_dev_nonempty v :
  v <> [] -> sum_sq_dev np_mean v = NpFloat (to_float (sum_sq_dev np_mean v)).
Proof.
  intros H. unfold sum_sq_dev. apply py_sum_nonempty.
  unfold np_square, np_sub_scalar. destruct v; [congruence | discriminate].
Qed.

(** [explained_variance] compares no lengths.  It raises only when both
    arrays are empty ([ZeroDivisionError]); otherwise it returns, and what it
    returns is an infinity or a NaN when the total sum of squares is zero. *)
Theorem explained_variance_outcome (y_obs y_pred : vector) :
  (y_obs = [] -> y_pred = [] ->
   explained_variance np_mean y_obs y_pred = Raise ZeroDivisionError)
  /\ (y_obs <> [] \/ y_pred <> [] ->
      exists r,
        explained_variance np_mean y_obs y_pred = Ok (NpFloat r)
        /\ (py_is_zero (sum_sq_dev np_mean y_obs) = true ->
            finite_value r = false)).
Proof.
  split.
  - intros -> ->. reflexivity.
  - intros H. unfold explained_variance.
    fold (sum_sq_dev np_mean y_obs).
    set (reg := py_sum (np_square (np_sub_scalar y_pred (np_mean y_obs)))).
    assert (Hnp : is_np reg || is_np (sum_sq_dev np_mean y_obs) = true).
    { destruct y_obs as [|a y_obs].
      - destruct H as [H|H]; [congruence|].
        unfold reg. rewrite py_sum_nonempty; [reflexivity|].
        unfold np_square, np_sub_scalar.
        destruct y_pred; [congruence | discriminate].
      - rewrite (sum_sq_dev_nonempty (a :: y_obs)) by discriminate.
        apply orb_true_r. }
    rewrite (num_truediv_np _ _ Hnp)
      by (unfold reg, sum_sq_dev; apply py_sum_converts).
    cbn [bind].
    eexists. split; [reflexivity|].
    intros Hz. apply py_is_zero_to_float in Hz. destruct Hz as [s Hs].
    apply div_not_finite. rewrite Hs. exact I.
Qed.

Lemma broadcast_of_empty op (b : vector) :
  broadcastable [] b = true -> broadcast op [] b = Ok [].
Proof.
  destruct b as [|y [|y' b]]; [reflexivity | reflexivity | discriminate].
Qed.

(** [generalized_r2] raises [ValueError] exactly on two arrays that cannot be
    broadcast, [ZeroDivisionError] exactly when, besides, [y_obs] is empty,
    and returns otherwise. *)
Theorem generalized_r2_outcome (y_obs y_pred : vector) :
  (broadcastable y_obs y_pred = false ->
   generalized_r2 np_mean y_obs y_pred = Raise ValueError)
  /\ (broadcastable y_obs y_pred = true -> y_obs = [] ->
      generalized_r2 np_mean y_obs y_pred = Raise ZeroDivisionError)
  /\ (broadcastable y_obs y_pred = true -> y_obs <> [] ->
      exists r, generalized_r2 np_mean y_obs y_pred = Ok (NpFloat r)).
Proof.
  split; [|split].
  - intros H. unfold generalized_r2, np_sub.
    rewrite broadcast_outcome, H. reflexivity.
  - intros H ->. unfold generalized_r2, np_sub.
    rewrite (broadcast_of_empty _ _ H). reflexivity.
  - intros H Hne. unfold generalized_r2, np_sub.
    rewrite broadcast_outcome, H. cbn [bind].
    fold (sum_sq_dev np_mean y_obs).
    rewrite (sum_sq_dev_nonempty y_obs Hne).
    rewrite num_truediv_np;
      [| apply orb_true_r | apply py_sum_converts | reflexivity].
    cbn [bind]. eexists. reflexivity.
Qed.

End MetricErrors.

Lemma pearson_raises_on_short_prediction_witness :
  pearson mean_seq [1; 2; 3]%float [1; 2]%float = Raise IndexError
  /\ exists r, pearson mean_seq [1; 2]%float [1; 2; 3]%float = Ok (NpFloat r).
Proof.
  split.
  - apply (pearson_raises_on_short_prediction mean_seq
             [1; 2; 3]%float [1; 2]%float). simpl. lia.
  - apply (pearson_raises_on_short_prediction mean_seq
             [1; 2]%float [1; 2; 3]%float). simpl. lia.
Defined.

Lemma explained_variance_outcome_witness :
  explained_variance mean_seq [] [] = Raise ZeroDivisionError
  /\ exists r, explained_variance mean_seq [2; 2]%float [1; 2; 3]%float
               = Ok (NpFloat r)
               /\ finite_value r = false.
Proof.
  split.
  - apply (explained_variance_outcome mean_seq [] []); reflexivity.
  - destruct (proj2 (explained_variance_outcome mean_seq
                       [2; 2]%float [1; 2; 3]%float))
      as (r & Hr & Hf); [left; discriminate|].
    exists r. split; [exact Hr | apply Hf; reflexivity].
Defined.

Lemma generalized_r2_outcome_witness :
  generalized_r2 mean_seq [1; 2; 3]%float [1; 2]%float = Raise ValueError
  /\ generalized_r2 mean_seq [] [1]%float = Raise ZeroDivisionError
  /\ exists r, generalized_r2 mean_seq [1; 2; 3]%float [2]%float
               = Ok (NpFloat r).
Proof.
  split; [|split].
  - apply (generalized_r2_outcome mean_seq [1; 2; 3]%float [1; 2]%float).
    reflexivity.
  - apply (generalized_r2_outcome mean_seq [] [1]%float); reflexivity.
  - apply (generalized_r2_outcome mean_seq [1; 2; 3]%float [2]%float);
      [reflexivity | discriminate].
Defined.

(** ** The rates when [lower_ci] is too short *)

Lemma for_each_counts_or_raise (body : counters -> nat -> result counters)
    (bad P Q : nat -> bool) (e : exn) (idx : list nat) :
  (forall i a b, In i idx ->
     body (a, b) i = if bad i then Raise e
                     else Ok (a + Z.b2z (P i), b + Z.b2z (Q i))) ->
  forall a b,
    for_each body idx (a, b)
    = if existsb bad idx then Raise e
      else Ok (a + count P idx, b + count Q idx).
Proof.
  induction idx as [|i idx IH]; intros Hbody a b.
  - unfold count. cbn [for_each existsb filter length Z.of_nat].
    rewrite !Z.add_0_r. reflexivity.
  - cbn [for_each existsb]. rewrite Hbody by (left; reflexivity).
    destruct (bad i); [reflexivity|]. cbn [bind orb].
    rewrite IH by (intros; apply Hbody; right; assumption).
    destruct (existsb bad idx); [reflexivity|].
    rewrite !count_cons, !Z.add_assoc. reflexivity.
Qed.

Section ShortLower.

Variables y_obs y_pred upper_ci lower_ci : vector.
Variable sigmas : num.
Hypothesis len_pred : length y_pred = length y_obs.
Hypothesis len_upper : length upper_ci = length y_obs.
Hypothesis obs_sized : sized y_obs = true.

Lemma getitem_scale_beyond c i :
  (length lower_ci <= i)%nat ->
  getitem (scale_by c lower_ci) i = Raise IndexError.
Proof.
  intros H. apply getitem_beyond. unfold scale_by. rewrite length_map. exact H.
Qed.

Lemma false_positive_body_reads i a b :
  (i < length y_obs)%nat ->
  false_positive_body y_obs y_pred (scale_by (to_float sigmas) upper_ci)
    (scale_by (to_float sigmas) lower_ci) (a, b) i
  = if is_zero_obs y_obs i && (length lower_ci <=? i)%nat
    then Raise IndexError
    else Ok (a + Z.b2z (is_zero_obs y_obs i),
             b + Z.b2z (is_false_positive y_obs y_pred upper_ci lower_ci
                          sigmas i)).
Proof.
  intros Hi. unfold false_positive_body, is_false_positive, is_zero_obs.
  rewrite !(getitem_at y_obs i), !(getitem_at y_pred i),
    !(getitem_scale (to_float sigmas) upper_ci i) by lia.
  cbn [bind].
  destruct (at_index y_obs i =? 0)%float eqn:Hz; cbn [bind andb].
  - destruct (Nat.leb_spec (length lower_ci) i) as [Hle|Hlt].
    + rewrite getitem_scale_beyond by assumption. reflexivity.
    + rewrite (getitem_scale (to_float sigmas) lower_ci i) by assumption.
      cbn [bind].
      unfold excludes_zero, scaled_lower, scaled_upper.
      rewrite (ltb_zero_r _ _ Hz), (ltb_zero_l _ _ Hz).
      destruct (_ <? 0)%float; [reflexivity|].
      destruct (0 <? _)%float; cbn [bind orb andb Z.b2z];
        rewrite ?Z.add_0_r; reflexivity.
  - cbn [Z.b2z]. rewrite !Z.add_0_r. reflexivity.
Qed.

Lemma false_negative_body_reads i a b :
  (i < length y_obs)%nat ->
  false_negative_body y_obs y_pred (scale_by (to_float sigmas) upper_ci)
    (scale_by (to_float sigmas) lower_ci) (a, b) i
  = if negb (is_zero_obs y_obs i) && (length lower_ci <=? i)%nat
    then Raise IndexError
    else Ok (a + Z.b2z (negb (is_zero_obs y_obs i)),
             b + Z.b2z (is_false_negative y_obs y_pred upper_ci lower_ci
                          sigmas i)).
Proof.
  intros Hi. unfold false_negative_body, is_false_negative, is_zero_obs.
  rewrite !(getitem_at y_obs i), !(getitem_at y_pred i),
    !(getitem_scale (to_float sigmas) upper_ci i) by lia.
  cbn [bind].
  destruct (at_index y_obs i =? 0)%float eqn:Hz; cbn [bind andb negb].
  - cbn [Z.b2z]. rewrite !Z.add_0_r. reflexivity.
  - destruct (Nat.leb_spec (length lower_ci) i) as [Hle|Hlt].
    + rewrite getitem_scale_beyond by assumption. reflexivity.
    + rewrite (getitem_scale (to_float sigmas) lower_ci i) by assumption.
      cbn [bind].
      unfold strictly_contains_zero, scaled_lower, scaled_upper.
      destruct (_ && _); cbn [andb Z.b2z]; rewrite ?Z.add_0_r; reflexivity.
Qed.

Lemma observations_sized (P : nat -> bool) :
  count_indices (length y_obs) P <= max_size.
Proof.
  pose proof (count_indices_bounds (length y_obs) P).
  unfold sized in obs_sized. apply Z.leb_le in obs_sized. lia.
Qed.

(** [lower_ci] is read only at the indices that the rate counts.  With
    [y_pred] and [upper_ci] as long as [y_obs], and a [sigmas] that converts
    to a float, [false_positive_rate] raises [IndexError] exactly when an
    observation equal to zero lies at or beyond the end of [lower_ci], and
    [false_negative_rate] exactly when a nonzero observation does; otherwise
    each is the quotient of its two counts, or [ZeroDivisionError] when the
    count of the denominator is zero.  With an [int] [sigmas] beyond the
    float range and at least one observation, both raise [OverflowError]
    before they read anything. *)
Theorem rates_read_lower_ci_where_counted :
  (num_overflows sigmas = false ->
   false_positive_rate y_obs y_pred upper_ci lower_ci sigmas
   = (if beyond (is_zero_obs y_obs) (length lower_ci) (length y_obs)
      then Raise IndexError
      else if zero_observations y_obs =? 0 then Raise ZeroDivisionError
      else Ok (PyFloat
             (float_of_Z (false_positive_count y_obs y_pred upper_ci lower_ci
                            sigmas)
              / float_of_Z (zero_observations y_obs))%float))
   /\ false_negative_rate y_obs y_pred upper_ci lower_ci sigmas
      = (if beyond (fun i => negb (is_zero_obs y_obs i)) (length lower_ci)
              (length y_obs)
         then Raise IndexError
         else if nonzero_observations y_obs =? 0 then Raise ZeroDivisionError
         else Ok (PyFloat
                (float_of_Z (false_negative_count y_obs y_pred upper_ci
                               lower_ci sigmas)
                 / float_of_Z (nonzero_observations y_obs))%float)))
  /\ (num_overflows sigmas = true -> y_obs <> [] ->
      false_positive_rate y_obs y_pred upper_ci lower_ci sigmas
      = Raise OverflowError
      /\ false_negative_rate y_obs y_pred upper_ci lower_ci sigmas
         = Raise OverflowError).
Proof.
  split; intros Hc.
  2:{ intros _. split;
        [apply false_positive_rate_overflow | apply false_negative_rate_overflow];
        assumption. }
  split.
  - unfold false_positive_rate.
    rewrite len_pred, len_upper, !Nat.eqb_refl. cbn [negb orb].
    rewrite !(np_scale_ok sigmas) by assumption. cbn [bind].
    unfold for_range, beyond.
    rewrite (for_each_counts_or_raise _
               (fun i => is_zero_obs y_obs i && (length lower_ci <=? i)%nat)
               (is_zero_obs y_obs)
               (is_false_positive y_obs y_pred upper_ci lower_ci sigmas)
               IndexError).
    + destruct (existsb _ _); [reflexivity|]. cbn [bind].
      rewrite !Z.add_0_l.
      apply (py_ratio_of_counts
               (false_positive_count y_obs y_pred upper_ci lower_ci sigmas)
               (zero_observations y_obs)).
      * apply false_positives_among_zeros.
      * apply observations_sized.
    + intros i a b Hi. apply in_seq in Hi.
      apply false_positive_body_reads. lia.
  - unfold false_negative_rate.
    rewrite len_pred, len_upper, !Nat.eqb_refl. cbn [negb orb].
    rewrite !(np_scale_ok sigmas) by assumption. cbn [bind].
    unfold for_range, beyond.
    rewrite (for_each_counts_or_raise _
               (fun i => negb (is_zero_obs y_obs i)
                         && (length lower_ci <=? i)%nat)
               (fun i => negb (is_zero_obs y_obs i))
               (is_false_negative y_obs y_pred upper_ci lower_ci sigmas)
               IndexError).
    + destruct (existsb _ _); [reflexivity|]. cbn [bind].
      rewrite !Z.add_0_l.
      apply (py_ratio_of_counts
               (false_negative_count y_obs y_pred upper_ci lower_ci sigmas)
               (nonzero_observations y_obs)).
      * apply false_negatives_among_nonzeros.
      * apply observations_sized.
    + intros i a b Hi. apply in_seq in Hi.
      apply false_negative_body_reads. lia.
Qed.

End ShortLower.

Lemma rates_read_lower_ci_where_counted_witness :
  false_positive_rate [0; 1; 0]%float [3; 1; 0]%float [1; 1; 1]%float
    [1]%float (PyInt 2) = Raise IndexError
  /\ false_positive_rate [0; 1; 2]%float [3; 1; 0]%float [1; 1; 1]%float
       [1]%float (PyInt 2) = Ok (PyFloat 1%float)
  /\ false_negative_rate [0; 1; 2]%float [3; 1; 0]%float [1; 1; 1]%float
       [1]%float (PyInt (10 ^ 400)) = Raise OverflowError.
Proof.
  split; [|split].
  - apply (rates_read_lower_ci_where_counted
             [0; 1; 0]%float [3; 1; 0]%float [1; 1; 1]%float [1]%float
             (PyInt 2) eq_refl eq_refl eq_refl). reflexivity.
  - apply (rates_read_lower_ci_where_counted
             [0; 1; 2]%float [3; 1; 0]%float [1; 1; 1]%float [1]%float
             (PyInt 2) eq_refl eq_refl eq_refl). reflexivity.
  - apply (rates_read_lower_ci_where_counted
             [0; 1; 2]%float [3; 1; 0]%float [1; 1; 1]%float [1]%float
             (PyInt (10 ^ 400)) eq_refl eq_refl eq_refl);
      [vm_compute; reflexivity | discriminate].
Defined.

(** ** The two rates together *)

Lemma filter_split_length (P : nat -> bool) l :
  count P l + count (fun x => negb (P x)) l = Z.of_nat (length l).
Proof.
  unfold count. induction l as [|x l IH]; [reflexivity|].
  cbn [filter]. destruct (P x); cbn [negb length]; lia.
Qed.

(** Every observation is counted by exactly one of the two rates. *)
Lemma observations_split y_obs :
  zero_observations y_obs + nonzero_observations y_obs
  = Z.of_nat (length y_obs).
Proof.
  unfold zero_observations, nonzero_observations, count_indices.
  rewrite filter_split_length, length_seq. reflexivity.
Qed.

(** On arrays of one length, with a [sigmas] that converts to a float, the
    two rates both raise only for empty arrays: as soon as there is an
    observation, one of the two returns.  (With an [int] [sigmas] beyond the
    float range both raise [OverflowError] as soon as there is an
    observation.) *)
Theorem rates_both_raise_only_when_empty
    (y_obs y_pred upper_ci lower_ci : vector) (sigmas : num) :
  length y_pred = length y_obs ->
  length upper_ci = length y_obs ->
  length lower_ci = length y_obs ->
  sized y_obs = true ->
  (num_overflows sigmas = false ->
   (raises (false_positive_rate y_obs y_pred upper_ci lower_ci sigmas)
    /\ raises (false_negative_rate y_obs y_pred upper_ci lower_ci sigmas))
   <-> y_obs = [])
  /\ (num_overflows sigmas = true -> y_obs <> [] ->
      false_positive_rate y_obs y_pred upper_ci lower_ci sigmas
      = Raise OverflowError
      /\ false_negative_rate y_obs y_pred upper_ci lower_ci sigmas
         = Raise OverflowError).
Proof.
  intros Hp Hu Hl Hs.
  rewrite false_positive_rate_quotient, false_negative_rate_quotient
    by assumption.
  split; intros Hc; rewrite Hc; [|split; reflexivity].
  pose proof (observations_split y_obs) as Hsplit.
  split.
  - intros [[e1 H1] [e2 H2]].
    destruct (Z.eqb_spec (zero_observations y_obs) 0) as [Ez|_];
      [|discriminate].
    destruct (Z.eqb_spec (nonzero_observations y_obs) 0) as [En|_];
      [|discriminate].
    destruct y_obs; [reflexivity|]. simpl length in Hsplit. lia.
  - intros ->. split; exists ZeroDivisionError; reflexivity.
Qed.

Lemma rates_both_raise_only_when_empty_witness :
  ~ (raises (false_positive_rate [1; 2]%float [1; 2]%float [1; 1]%float
               [1; 1]%float (PyInt 2))
     /\ raises (false_negative_rate [1; 2]%float [1; 2]%float [1; 1]%float
                  [1; 1]%float (PyInt 2))).
Proof.
  intros H.
  apply (proj1 (rates_both_raise_only_when_empty
                  [1; 2]%float [1; 2]%float [1; 1]%float [1; 1]%float
                  (PyInt 2) eq_refl eq_refl eq_refl eq_refl) eq_refl) in H.
  discriminate H.
Defined.

(** ** The calls of [F_test] *)

Section FTestCalls.

Variable f_cdf : float -> Z -> Z -> float.

(** On two fitted models of which the first has fewer parameters, [F_test]
    calls [predict] once on each model, the first model first, each time
    followed by [ss_residuals] on that model's data, and then [f.cdf] once,
    with the F statistic and the two degrees of freedom. *)
Theorem F_test_calls (m1 m2 : model) :
  fitted m1 = true -> fitted m2 = true ->
  n_params m1 < n_params m2 ->
  let df1 := n_params m2 - n_params m1 in
  let df2 := len (phenotypes m1) - n_params m2 - 1 in
  let F := ((rss m1 - rss m2) / float_of_Z df1
            / (rss m2 / float_of_Z df2))%float in
  trace_of (F_test f_cdf m1 m2)
  = [call_predict m1;
     call_ss_residuals (phenotypes m1) (predict m1 tt);
     call_predict m2;
     call_ss_residuals (phenotypes m2) (predict m2 tt);
     call_f_cdf (NpFloat F) df1 df2].
Proof.
  intros H1 H2 Hlt. unfold F_test, n_params in *.
  destruct (Z.geb_spec (len (Interactions_values m1))
              (len (Interactions_values m2))) as [Hge|_]; [lia|].
  unfold do_predict, do_ss_residuals, do_f_cdf, lift, trace_of.
  cbn [tbind].
  rewrite (ss_residuals_fitted m1 H1). cbn [tbind].
  rewrite (ss_residuals_fitted m2 H2). cbn [tbind].
  destruct (degrees_of_freedom_convert m1 m2) as [Hdf1 Hdf2].
  unfold n_params in Hdf1, Hdf2.
  change (num_sub (NpFloat (rss m1)) (NpFloat (rss m2)))
    with (NpFloat (rss m1 - rss m2)%float).
  rewrite (np_truediv_int _ _ Hdf1). cbn [tbind].
  rewrite (np_truediv_int _ _ Hdf2). cbn [tbind].
  reflexivity.
Qed.

(** Whatever the models, [F_test] does not call [f.cdf] when it raises. *)
Theorem F_test_no_cdf_call_when_raising (m1 m2 : model) (e : exn) :
  outcome (F_test f_cdf m1 m2) = Raise e ->
  existsb is_cdf_call (trace_of (F_test f_cdf m1 m2)) = false.
Proof.
  unfold F_test.
  destruct (len (Interactions_values m1) >=? len (Interactions_values m2));
    [reflexivity|].
  unfold do_predict, do_ss_residuals, do_f_cdf, lift, outcome, trace_of.
  cbn [tbind].
  destruct (ss_residuals (phenotypes m1) (predict m1 tt)) as [sse1|];
    [|reflexivity].
  cbn [tbind].
  destruct (ss_residuals (phenotypes m2) (predict m2 tt)) as [sse2|];
    [|reflexivity].
  cbn [tbind].
  destruct (num_truediv (num_sub sse1 sse2) _) as [a|]; [|reflexivity].
  cbn [tbind].
  destruct (num_truediv sse2 _) as [b|]; [|reflexivity].
  cbn [tbind].
  destruct (num_truediv a b) as [F|]; [|reflexivity].
  cbn [tbind fst snd]. discriminate.
Qed.

End FTestCalls.

Lemma F_test_calls_witness :
  trace_of (F_test unit_cdf small_model large_model)
  = [call_predict small_model;
     call_ss_residuals [1; 2; 4; 3]%float [2; 2; 3; 3]%float;
     call_predict large_model;
     call_ss_residuals [1; 2; 4; 3]%float [1; 2; 3; 3]%float;
     call_f_cdf (NpFloat 1%float) 1 1].
Proof.
  pose proof (F_test_calls unit_cdf small_model large_model
                eq_refl eq_refl eq_refl) as H.
  vm_compute in H. vm_compute. exact H.
Defined.

Lemma F_test_no_cdf_call_when_raising_witness :
  existsb is_cdf_call
    (trace_of (F_test unit_cdf small_model_unobserved large_model_unobserved))
  = false.
Proof.
  apply (F_test_no_cdf_call_when_raising unit_cdf small_model_unobserved
           large_model_unobserved ZeroDivisionError).
  vm_compute. reflexivity.
Defined.

(** ** Symmetry *)

Lemma binary_round_aux_opp m e l :
  binary_round_aux prec emax true m e l
  = SFopp (binary_round_aux prec emax false m e l).
Proof.
  unfold binary_round_aux.
  destruct (shr_fexp prec emax m e l) as [mrs1 e1].
  destruct (shr_fexp prec emax _ e1 loc_Exact) as [mrs2 e2].
  destruct (shr_m mrs2); try reflexivity.
  destruct (e2 <=? emax - prec); reflexivity.
Qed.

Lemma binary_round_opp m e :
  binary_round prec emax true m e = SFopp (binary_round prec emax false m e).
Proof.
  unfold binary_round. destruct (shl_align m e _) as [mz ez].
  apply binary_round_aux_opp.
Qed.

Lemma binary_normalize_opp d e :
  same_magnitude (binary_normalize prec emax d e false)
                 (binary_normalize prec emax (- d) e false).
Proof.
  destruct d as [|p|p]; cbn [Z.opp binary_normalize].
  - left. reflexivity.
  - right. apply binary_round_opp.
  - right. rewrite binary_round_opp.
    destruct (binary_round prec emax false p e) as [[]|[]| |[] ? ?];
      reflexivity.
Qed.

(** [y - x] is [x - y] or its opposite. *)
Lemma sub_swap x y :
  same_magnitude (Prim2SF (x - y)%float) (Prim2SF (y - x)%float).
Proof.
  rewrite !FloatAxioms.sub_spec.
  destruct (Prim2SF x) as [sx | sx | | sx mx ex],
           (Prim2SF y) as [sy | sy | | sy my ey];
    try (left; reflexivity); try (right; reflexivity);
    try (destruct sx, sy; (left; reflexivity) || (right; reflexivity)).
  unfold SF64sub, SFsub. rewrite (Z.min_comm ey ex).
  match goal with
  | |- same_magnitude (binary_normalize _ _ ?d _ _)
         (binary_normalize _ _ ?d' _ _) =>
      replace d' with (- d) by lia
  end.
  apply binary_normalize_opp.
Qed.

(** A number and its opposite have one square. *)
Lemma square_same_magnitude u v :
  same_magnitude (Prim2SF u) (Prim2SF v) -> (v * v = u * u)%float.
Proof.
  intros H. apply Prim2SF_inj. rewrite !mul_spec.
  destruct H as [-> | ->]; [reflexivity|].
  destruct (Prim2SF u) as [s | s | | s m e]; cbn; try reflexivity;
    destruct s; reflexivity.
Qed.

Lemma square_sub_swap x y : ((y - x) * (y - x) = (x - y) * (x - y))%float.
Proof. apply square_same_magnitude, sub_swap. Qed.

Lemma squares_map2_swap (a : vector) : forall b,
  np_square (map2 PrimFloat.sub b a) = np_square (map2 PrimFloat.sub a b).
Proof.
  unfold np_square.
  induction a as [|x a IH]; intros [|y b]; try reflexivity.
  cbn [map2 map]. rewrite IH, square_sub_swap. reflexivity.
Qed.

Lemma squares_broadcast_swap (a : vector) y :
  np_square (map (PrimFloat.sub y) a)
  = np_square (map (fun x => (x - y)%float) a).
Proof.
  unfold np_square. rewrite !map_map. apply map_ext.
  intros x. apply square_sub_swap.
Qed.

(** [ss_residuals] does not depend on the order of its two arguments: the
    same error or, bit for bit, the same sum. *)
Theorem ss_residuals_symmetric (a b : vector) :
  ss_residuals a b = ss_residuals b a.
Proof.
  unfold ss_residuals, np_sub, broadcast.
  rewrite (Nat.eqb_sym (length b) (length a)).
  destruct (length a =? length b)%nat eqn:E.
  - cbn [bind]. rewrite squares_map2_swap. reflexivity.
  - destruct a as [|x [|x' a]], b as [|y [|y' b]];
      try reflexivity; try (cbn in E; discriminate);
      cbn [bind]; f_equal; f_equal.
    + apply (squares_broadcast_swap (y :: y' :: b) x).
    + symmetry. apply (squares_broadcast_swap (x :: x' :: a) y).
Qed.

(** The product of two binary64 numbers does not depend on their order. *)
Lemma mul_comm x y : (x * y = y * x)%float.
Proof.
  apply Prim2SF_inj. rewrite !mul_spec.
  destruct (Prim2SF x) as [sx | sx | | sx mx ex],
           (Prim2SF y) as [sy | sy | | sy my ey];
    cbn; try reflexivity; try (destruct sx, sy; reflexivity).
  rewrite (xorb_comm sy sx), (Pos.mul_comm my mx), (Z.add_comm ey ex).
  reflexivity.
Qed.

(** [pearson] of two vectors of one length does not depend on their order,
    bit for bit. *)
Theorem pearson_symmetric (np_mean : vector -> float) (x y : vector) :
  length x = length y ->
  pearson np_mean x y = pearson np_mean y x.
Proof.
  intros H. rewrite !pearson_value by lia. rewrite H.
  f_equal. f_equal. f_equal.
  - f_equal. f_equal. apply map_ext. intros i.
    unfold pearson_term. apply mul_comm.
  - apply mul_comm.
Qed.

Lemma pearson_symmetric_witness :
  pearson mean_seq [1; 2; 4]%float [3; 1; 2]%float
  = pearson mean_seq [3; 1; 2]%float [1; 2; 4]%float.
Proof.
  exact (pearson_symmetric mean_seq [1; 2; 4]%float [3; 1; 2]%float eq_refl).
Defined.

(** [F_test] can return for one order of two models at most: in one of the
    two orders it raises its nesting error, and in both when the models have
    the same number of parameters. *)
Theorem F_test_one_order_at_most (f_cdf : float -> Z -> Z -> float)
    (m1 m2 : model) :
  (outcome (F_test f_cdf m1 m2) = Raise nesting_error
   \/ outcome (F_test f_cdf m2 m1) = Raise nesting_error)
  /\ (n_params m1 = n_params m2 ->
      outcome (F_test f_cdf m1 m2) = Raise nesting_error
      /\ outcome (F_test f_cdf m2 m1) = Raise nesting_error).
Proof.
  split.
  - destruct (Z_lt_ge_dec (n_params m1) (n_params m2)) as [Hlt|Hge].
    + right. rewrite F_test_not_nested by lia. reflexivity.
    + left. rewrite F_test_not_nested by assumption. reflexivity.
  - intros H. split; rewrite F_test_not_nested by lia; reflexivity.
Qed.

Lemma F_test_one_order_at_most_witness :
  outcome (F_test unit_cdf small_model small_model) = Raise nesting_error.
Proof.
  apply (F_test_one_order_at_most unit_cdf small_model small_model).
  reflexivity.
Defined.
